(** * Dynamic model registry and permission-gated CRUD generator

    A shallow embedding of [server/index.js]: the type mapper
    [getSequelizeType], the RBAC middleware [createRbacMiddleware], the
    registration routine [registerModel] with the five CRUD routes it
    appends to [dynamicApiRouter], the boot loader [loadModelsFromFiles]
    and the publish and schema-lookup endpoints.

    Sequelize (the Table Store), fs-extra (the File Store), the path
    matching of Express and [String.prototype.toLowerCase] are external;
    they appear as the interfaces [TableStore], [FileStore], [Express]
    and [JavaScript], and every general result about the server holds
    for all their implementations.  Small in-memory implementations
    ([Mem]) serve to run the server on concrete requests.

    The second half covers what surrounds the registry: [startServer],
    the invariants of registry and router, the two authentication routers
    (over the interfaces [Identity] and [Pool]) and, from the client,
    [can], [handleRbacChange] and the body the model builder posts. *)

From Stdlib Require Import Ascii DecimalString.
From stdpp Require Import gmap strings list fin_maps.

Open Scope string_scope.

(** ** JavaScript strings *)

(** [String.prototype.toLowerCase].  What it does to each character is
    left to the engine. *)
Class JavaScript := { toLowerCase : string → string }.

(** [String.prototype.endsWith]. *)
Definition endsWith (s suffix : string) : bool :=
  let n := String.length s in
  let m := String.length suffix in
  (m <=? n)%nat && String.eqb (String.substring (n - m) m s) suffix.

(** [Array.prototype.includes] on an array of strings. *)
Fixpoint includes (xs : list string) (x : string) : bool :=
  match xs with
  | [] => false
  | y :: ys => String.eqb y x || includes ys x
  end.

(** ** Data model *)

(** The roles a token can carry: signup accepts only these three and the
    [User] model stores the role as [ENUM('Admin', 'Manager', 'Viewer')]. *)
Inductive Role := Admin | Manager | Viewer.

Definition role_name (r : Role) : string :=
  match r with
  | Admin => "Admin"
  | Manager => "Manager"
  | Viewer => "Viewer"
  end.

Record User := { user_id : string; username : string; role : Role }.

(** What [jwt.verify] makes of the [authorization] header. *)
Inductive Credential :=
  | NoToken
  | InvalidToken
  | Verified (decoded : User).

(** Sequelize column types. *)
Inductive DataType := STRING | FLOAT | BOOLEAN | DATE.

Record Field := {
  field_name : string;
  field_type : string;
  required : bool;
  default : option string;
  unique : bool }.

Record Attribute := {
  type : DataType;
  allowNull : bool;
  defaultValue : option string;
  attr_unique : bool }.

(** A model definition, as published and as stored in [models-config]. *)
Record ModelConfig := {
  name : string;
  tableName : option string;
  fields : list Field;
  rbac : gmap string (list string) }.

(** The JSON body of a publish request, before any check: each property
    may be missing. *)
Record PublishBody := {
  body_name : option string;
  body_tableName : option string;
  body_fields : option (list Field);
  body_rbac : option (gmap string (list string)) }.

Record Error := { message : string }.

(** The settlement of a promise. *)
Inductive Outcome (A : Type) :=
  | Resolved (a : A)
  | Rejected (e : Error).
Arguments Resolved {A} a.
Arguments Rejected {A} e.

Inductive Method := GET | POST | PUT | DELETE.

Definition Method_eqb (a b : Method) : bool :=
  match a, b with
  | GET, GET | POST, POST | PUT, PUT | DELETE, DELETE => true
  | _, _ => false
  end.

(** A request under [/api]: [/api/<target>] or [/api/<target>/<rest>].
    [params_id] holds [<rest>] as the request arrives, and
    [req.params.id] while the middleware of a route that matched run. *)
Record Request (B : Type) := {
  method : Method;
  target : string;
  params_id : option string;
  credential : Credential;
  body : B;
  user : option User }.
Arguments method {B} r.
Arguments target {B} r.
Arguments params_id {B} r.
Arguments credential {B} r.
Arguments body {B} r.
Arguments user {B} r.

Definition set_user {B} (req : Request B) (u : User) : Request B :=
  {| method := method req; target := target req; params_id := params_id req;
     credential := credential req; body := body req; user := Some u |}.

Definition set_params_id {B} (req : Request B) (i : option string) : Request B :=
  {| method := method req; target := target req; params_id := i;
     credential := credential req; body := body req; user := user req |}.

(** ** 4.1 Type mapper *)

Definition getSequelizeType (type : string) : DataType :=
  if String.eqb type "string" then STRING
  else if String.eqb type "number" then FLOAT
  else if String.eqb type "boolean" then BOOLEAN
  else if String.eqb type "date" then DATE
  else STRING.

(** ** 4.2 Permission evaluator *)

(** The guard of [createRbacMiddleware]:
    [permissions && (permissions.includes(action) || permissions.includes('all'))]
    with [permissions = modelConfig.rbac[userRole]]. *)
Definition isAllowed (matrix : gmap string (list string)) (userRole : Role)
    (action : string) : bool :=
  match matrix !! role_name userRole with
  | None => false
  | Some permissions => includes permissions action || includes permissions "all"
  end.

(** ** External collaborators *)

(** The part of Sequelize the server calls.  [define] is
    [sequelize.define(modelName, schema, { tableName })]; the other
    operations are promises run against the database. *)
Class TableStore := {
  DB : Type;
  Model : Type;
  Item : Type;
  Payload : Type;
  define : string → gmap string Attribute → string → Outcome Model;
  sync : Model → DB → Outcome unit * DB;
  create : Model → Payload → DB → Outcome Item * DB;
  findAll : Model → DB → Outcome (list Item) * DB;
  findByPk : Model → option string → DB → Outcome (option Item) * DB;
  update : Item → Payload → DB → Outcome Item * DB;
  destroy : Item → DB → Outcome unit * DB }.

(** The part of fs-extra the server calls, on [MODELS_CONFIG_DIR]; a file
    is named relative to that directory. *)
Class FileStore := {
  FS : Type;
  ensureDir : FS → Outcome unit * FS;
  readdir : FS → Outcome (list string) * FS;
  readJson : string → FS → Outcome ModelConfig * FS;
  writeJson : string → ModelConfig → FS → Outcome unit * FS }.

(** The part of Express's routing the server relies on.  A path given to
    [router.METHOD] is compiled, and a path Express cannot compile makes
    the call throw.  A compiled path is matched against the path of a
    request under [/api], [/target] or [/target/rest]; when it matches,
    the result is the value of the parameter of the path, [:id] or
    [:modelName], if it has one.  How Express reads a path, as a pattern,
    without regard to case, is left to the implementation. *)
Class Express := {
  compile_path : string → option Error;
  match_path : string → string → option string → option (option string) }.

Section Server.

Context `{TS : TableStore} `{FSt : FileStore} `{Ex : Express} `{Js : JavaScript}.

(** ** Responses and middleware *)

Inductive ResBody :=
  | Text (s : string)
  | JsonItem (i : Item)
  | JsonItems (l : list Item)
  | JsonMessage (s : string)
  | JsonConfig (c : ModelConfig)
  | Empty.

Record Response := { status : nat; payload : ResBody }.

(** What one middleware does with a request: call [next()], send the
    response, or throw. *)
Inductive Step (B : Type) :=
  | Next (req : Request B) (db : DB)
  | Send (res : Response) (db : DB)
  | Throw (e : Error) (db : DB).
Arguments Next {B} req db.
Arguments Send {B} res db.
Arguments Throw {B} e db.

Definition Middleware (B : Type) := Request B → DB → Step B.

Definition authMiddleware {B} : Middleware B := λ req db,
  match credential req with
  | NoToken => Send {| status := 401; payload := Text "Access denied. No token provided." |} db
  | InvalidToken => Send {| status := 400; payload := Text "Invalid token." |} db
  | Verified decoded => Next (set_user req decoded) db
  end.

Definition adminOnly {B} : Middleware B := λ req db,
  match user req with
  | None => Throw {| message := "Cannot read properties of undefined (reading 'role')" |} db
  | Some u =>
      match role u with
      | Admin => Next req db
      | _ => Send {| status := 403; payload := Text "Forbidden. Admin access required." |} db
      end
  end.

Definition forbidden (userRole : Role) (action modelName : string) : Response :=
  {| status := 403;
     payload := Text ("Forbidden: Role '" +:+ role_name userRole +:+ "' cannot perform '"
                      +:+ action +:+ "' on " +:+ modelName +:+ ".") |}.

Definition createRbacMiddleware {B} (modelConfig : ModelConfig) (action : string)
    : Middleware B := λ req db,
  match user req with
  | None => Throw {| message := "Cannot read properties of undefined (reading 'role')" |} db
  | Some u =>
      let userRole := role u in
      if isAllowed (rbac modelConfig) userRole action
      then Next req db
      else Send (forbidden userRole action (name modelConfig)) db
  end.

(** ** 4.4 The five CRUD handlers *)

Definition notFound : Response := {| status := 404; payload := Text "Not found" |}.

Definition createHandler (DynamicModel : Model) : Middleware Payload := λ req db,
  match create DynamicModel (body req) db with
  | (Resolved item, db') => Send {| status := 201; payload := JsonItem item |} db'
  | (Rejected e, db') => Send {| status := 400; payload := Text (message e) |} db'
  end.

Definition listHandler (DynamicModel : Model) : Middleware Payload := λ req db,
  match findAll DynamicModel db with
  | (Resolved items, db') => Send {| status := 200; payload := JsonItems items |} db'
  | (Rejected e, db') => Send {| status := 500; payload := Text (message e) |} db'
  end.

Definition getHandler (DynamicModel : Model) : Middleware Payload := λ req db,
  match findByPk DynamicModel (params_id req) db with
  | (Resolved None, db') => Send notFound db'
  | (Resolved (Some item), db') => Send {| status := 200; payload := JsonItem item |} db'
  | (Rejected e, db') => Send {| status := 500; payload := Text (message e) |} db'
  end.

Definition updateHandler (DynamicModel : Model) : Middleware Payload := λ req db,
  match findByPk DynamicModel (params_id req) db with
  | (Resolved None, db') => Send notFound db'
  | (Resolved (Some item), db') =>
      match update item (body req) db' with
      | (Resolved item', db'') => Send {| status := 200; payload := JsonItem item' |} db''
      | (Rejected e, db'') => Send {| status := 400; payload := Text (message e) |} db''
      end
  | (Rejected e, db') => Send {| status := 400; payload := Text (message e) |} db'
  end.

Definition deleteHandler (DynamicModel : Model) : Middleware Payload := λ req db,
  match findByPk DynamicModel (params_id req) db with
  | (Resolved None, db') => Send notFound db'
  | (Resolved (Some item), db') =>
      match destroy item db' with
      | (Resolved _, db'') => Send {| status := 204; payload := Empty |} db''
      | (Rejected e, db'') => Send {| status := 500; payload := Text (message e) |} db''
      end
  | (Rejected e, db') => Send {| status := 500; payload := Text (message e) |} db'
  end.

(** ** The router *)

(** A layer of [dynamicApiRouter]: a method, a path ([/base] or
    [/base/:id]) and the middleware given to [router.METHOD]. *)
Record Route := {
  route_method : Method;
  route_base : string;
  route_has_id : bool;
  stack : list (Middleware Payload) }.

Inductive HandlerKind := Create | ListAll | GetById | Update | Delete.

Definition kinds : list HandlerKind := [Create; ListAll; GetById; Update; Delete].

(** The action each handler is registered with. *)
Definition action_of (k : HandlerKind) : string :=
  match k with
  | Create => "create"
  | ListAll | GetById => "read"
  | Update => "update"
  | Delete => "delete"
  end.

(** The routes [registerModel] adds, in the order it adds them. *)
Definition crudRoute (modelConfig : ModelConfig) (DynamicModel : Model)
    (k : HandlerKind) : Route :=
  let routeBase := toLowerCase (name modelConfig) in
  match k with
  | Create =>
      {| route_method := POST; route_base := routeBase; route_has_id := false;
         stack := [authMiddleware; createRbacMiddleware modelConfig "create";
                   createHandler DynamicModel] |}
  | ListAll =>
      {| route_method := GET; route_base := routeBase; route_has_id := false;
         stack := [authMiddleware; createRbacMiddleware modelConfig "read";
                   listHandler DynamicModel] |}
  | GetById =>
      {| route_method := GET; route_base := routeBase; route_has_id := true;
         stack := [authMiddleware; createRbacMiddleware modelConfig "read";
                   getHandler DynamicModel] |}
  | Update =>
      {| route_method := PUT; route_base := routeBase; route_has_id := true;
         stack := [authMiddleware; createRbacMiddleware modelConfig "update";
                   updateHandler DynamicModel] |}
  | Delete =>
      {| route_method := DELETE; route_base := routeBase; route_has_id := true;
         stack := [authMiddleware; createRbacMiddleware modelConfig "delete";
                   deleteHandler DynamicModel] |}
  end.

Definition crudRoutes (modelConfig : ModelConfig) (DynamicModel : Model) : list Route :=
  map (crudRoute modelConfig DynamicModel) kinds.

(** Running the middleware of one route in order. *)
Fixpoint run_stack {B} (mws : list (Middleware B)) (req : Request B) (db : DB) : Step B :=
  match mws with
  | [] => Next req db
  | mw :: rest =>
      match mw req db with
      | Next req' db' => run_stack rest req' db'
      | settled => settled
      end
  end.

(** The path of a route: [routeBase] or [`${routeBase}/:id`], with
    [routeBase = `/${modelName.toLowerCase()}`]. *)
Definition route_path (r : Route) : string :=
  "/" +:+ route_base r +:+ (if route_has_id r then "/:id" else "").

(** Whether a layer takes a request: the method is that of the route and
    Express matches the path.  The result holds [req.params.id]. *)
Definition route_match (r : Route) (req : Request Payload) : option (option string) :=
  if Method_eqb (route_method r) (method req)
  then match_path (route_path r) (target req) (params_id req)
  else None.

(** The router tries its layers in the order they were added.  The
    middleware of a layer that matches run with the [req.params] of that
    layer; when they all call [next()], the following layers are tried on
    the path the request came with. *)
Fixpoint handle (layers : list Route) (req : Request Payload) (db : DB) : Step Payload :=
  match layers with
  | [] => Next req db
  | r :: rest =>
      match route_match r req with
      | Some params =>
          match run_stack (stack r) (set_params_id req params) db with
          | Next req' db' => handle rest (set_params_id req' (params_id req)) db'
          | settled => settled
          end
      | None => handle rest req db
      end
  end.

(** ** The server's state *)

(** An entry of [dynamicModels]. *)
Record Entry := { model : Model; config : ModelConfig }.

Record Server := {
  dynamicModels : gmap string Entry;
  dynamicApiRouter : list Route;
  database : DB;
  disk : FS;
  console : list string }.

Definition set_dynamicModels (s : Server) (m : gmap string Entry) : Server :=
  {| dynamicModels := m; dynamicApiRouter := dynamicApiRouter s;
     database := database s; disk := disk s; console := console s |}.

Definition set_dynamicApiRouter (s : Server) (r : list Route) : Server :=
  {| dynamicModels := dynamicModels s; dynamicApiRouter := r;
     database := database s; disk := disk s; console := console s |}.

Definition set_database (s : Server) (d : DB) : Server :=
  {| dynamicModels := dynamicModels s; dynamicApiRouter := dynamicApiRouter s;
     database := d; disk := disk s; console := console s |}.

Definition set_disk (s : Server) (d : FS) : Server :=
  {| dynamicModels := dynamicModels s; dynamicApiRouter := dynamicApiRouter s;
     database := database s; disk := d; console := console s |}.

Definition set_console (s : Server) (c : list string) : Server :=
  {| dynamicModels := dynamicModels s; dynamicApiRouter := dynamicApiRouter s;
     database := database s; disk := disk s; console := c |}.

(** An [async] computation: it settles and leaves a state behind, also
    when it rejects. *)
Definition Async (A : Type) : Type := Server → Outcome A * Server.

Definition settle {A} (o : Outcome A) : Async A := λ s, (o, s).

Definition resolve {A} (a : A) : Async A := settle (Resolved a).

(** [await]: a rejection skips the rest of the function, and the state
    reached so far stays. *)
Definition await {A B} (k : A → Async B) (m : Async A) : Async B := λ s,
  match m s with
  | (Resolved a, s') => k a s'
  | (Rejected e, s') => (Rejected e, s')
  end.

Global Instance Async_ret : MRet Async := @resolve.
Global Instance Async_bind : MBind Async := @await.

Definition try_catch {A} (m : Async A) (handler : Error → Async A) : Async A := λ s,
  match m s with
  | (Resolved a, s') => (Resolved a, s')
  | (Rejected e, s') => handler e s'
  end.

Definition on_database {A} (op : DB → Outcome A * DB) : Async A := λ s,
  let '(r, d) := op (database s) in (r, set_database s d).

Definition on_disk {A} (op : FS → Outcome A * FS) : Async A := λ s,
  let '(r, d) := op (disk s) in (r, set_disk s d).

Definition console_log (line : string) : Async unit := λ s,
  (Resolved tt, set_console s (console s ++ [line])).

(** ** 4.3 Registration *)

Definition attribute_of (field : Field) : Attribute :=
  {| type := getSequelizeType (field_type field);
     allowNull := negb (required field);
     defaultValue := default field;
     attr_unique := unique field |}.

(** [schema[field.name] = {...}] for each field in turn.  The object is
    read as a map from field names to attributes; the one name
    JavaScript does not store as a key, [__proto__], is not set apart. *)
Definition schema_of (fs : list Field) : gmap string Attribute :=
  foldl (λ schema field, <[field_name field := attribute_of field]> schema) ∅ fs.

(** [modelConfig.tableName || `${modelName.toLowerCase()}s`] *)
Definition table_of (modelConfig : ModelConfig) : string :=
  match tableName modelConfig with
  | Some t => if String.eqb t "" then toLowerCase (name modelConfig) +:+ "s" else t
  | None => toLowerCase (name modelConfig) +:+ "s"
  end.

(** [dynamicModels[modelName] = entry] *)
Definition store (modelName : string) (entry : Entry) : Async unit := λ s,
  (Resolved tt, set_dynamicModels s (<[modelName := entry]> (dynamicModels s))).

(** [dynamicApiRouter.METHOD(path, ...)]: the route becomes the last
    layer, unless Express cannot compile its path and throws. *)
Definition add_route (r : Route) : Async unit := λ s,
  match compile_path (route_path r) with
  | Some error => (Rejected error, s)
  | None => (Resolved tt, set_dynamicApiRouter s (dynamicApiRouter s ++ [r]))
  end.

(** The routes of one model, added in order; the first call that throws
    ends the registration, and the routes added before it stay. *)
Fixpoint add_routes (routes : list Route) : Async unit :=
  match routes with
  | [] => resolve tt
  | r :: rest => add_route r;; add_routes rest
  end.

Definition registerModel (modelConfig : ModelConfig) : Async unit :=
  let modelName := name modelConfig in
  let tableName := table_of modelConfig in
  let schema := schema_of (fields modelConfig) in
  DynamicModel ← settle (define modelName schema tableName);
  store modelName {| model := DynamicModel; config := modelConfig |};;
  add_routes (crudRoutes modelConfig DynamicModel);;
  console_log ("Registered routes for model: " +:+ modelName);;
  on_database (sync DynamicModel).

(** ** 4.6 Boot loader *)

Fixpoint load_each (files : list string) : Async unit :=
  match files with
  | [] => resolve tt
  | file :: rest =>
      (if endsWith file ".json"
       then config ← on_disk (readJson file); registerModel config
       else resolve tt);;
      load_each rest
  end.

Definition loadModelsFromFiles : Async unit :=
  try_catch
    (on_disk ensureDir;;
     files ← on_disk readdir;
     load_each files)
    (λ error, console_log ("Error loading models: " +:+ message error)).

(** ** 4.5 Publish *)

(** The check of the publish endpoint:
    [!modelName || !modelConfig.fields || !modelConfig.rbac] rejects. *)
Definition validate (b : PublishBody) : option ModelConfig :=
  match body_name b, body_fields b, body_rbac b with
  | Some modelName, Some fs, Some matrix =>
      if String.eqb modelName "" then None
      else Some {| name := modelName; tableName := body_tableName b;
                   fields := fs; rbac := matrix |}
  | _, _, _ => None
  end.

(** [dynamicModels] is a plain object: besides the entries stored in it,
    a key can name a property it inherits. *)
Definition Object_prototype : list string :=
  ["constructor"; "__proto__"; "hasOwnProperty"; "isPrototypeOf";
   "propertyIsEnumerable"; "toString"; "toLocaleString"; "valueOf";
   "__defineGetter__"; "__defineSetter__"; "__lookupGetter__"; "__lookupSetter__"].

Inductive Property :=
  | Own (entry : Entry)
  | Inherited
  | Undefined.

(** [dynamicModels[key]].  An entry stored under [__proto__] becomes the
    prototype of the object, which then inherits its [model] and
    [config]. *)
Definition get_model (s : Server) (key : string) : Property :=
  match dynamicModels s !! key with
  | Some entry => Own entry
  | None =>
      if includes Object_prototype key then Inherited
      else match dynamicModels s !! "__proto__" with
           | Some _ => if includes ["model"; "config"] key then Inherited else Undefined
           | None => Undefined
           end
  end.

(** [if (dynamicModels[modelName]) console.warn(...)] *)
Definition warn_if_registered (modelName : string) : Async unit := λ s,
  match get_model s modelName with
  | Own _ | Inherited =>
      console_log ("Hot-reloading model: " +:+ modelName
                   +:+ ". (In a real app, this is complex!)") s
  | Undefined => resolve tt s
  end.

Definition publish_try (req : Request PublishBody) : Async Response :=
  match validate (body req) with
  | None => resolve {| status := 400; payload := Text "Invalid model configuration." |}
  | Some modelConfig =>
      let modelName := name modelConfig in
      on_disk (writeJson (modelName +:+ ".json") modelConfig);;
      warn_if_registered modelName;;
      registerModel modelConfig;;
      resolve {| status := 201;
                 payload := JsonMessage ("Model " +:+ modelName +:+ " published successfully.") |}
  end.

Definition publish_handler (req : Request PublishBody) (s : Server) : Response * Server :=
  match publish_try req s with
  | (Resolved res, s') => (res, s')
  | (Rejected error, s') =>
      ({| status := 500; payload := Text (message error) |},
       set_console s' (console s' ++ ["Error publishing model: " +:+ message error]))
  end.

(** Express answers an exception no handler caught with status 500. *)
Definition uncaught (e : Error) : Response :=
  {| status := 500; payload := Text "Internal Server Error" |}.

(** [app.post('/api/models/publish', authMiddleware, adminOnly, ...)]:
    what the route does with a request that reaches it. *)
Definition publish (req : Request PublishBody) (s : Server) : Response * Server :=
  match run_stack [authMiddleware; adminOnly] req (database s) with
  | Next req' d => publish_handler req' (set_database s d)
  | Send res d => (res, set_database s d)
  | Throw e d => (uncaught e, set_database s d)
  end.

(** A CRUD request, through [dynamicApiRouter]; a request no layer
    answers falls through to the rest of the application. *)
Definition crud (req : Request Payload) (s : Server) : option Response * Server :=
  match handle (dynamicApiRouter s) req (database s) with
  | Next _ d => (None, set_database s d)
  | Send res d => (Some res, set_database s d)
  | Throw e d => (Some (uncaught e), set_database s d)
  end.

(** The handler of [app.get('/api/models/:modelName', ...)].  For a key
    the object only inherits, [modelData.config] is undefined and the
    answer is an empty 200. *)
Definition model_schema_handler (modelName : string) (s : Server) : Response :=
  match get_model s modelName with
  | Own modelData => {| status := 200; payload := JsonConfig (config modelData) |}
  | Inherited => {| status := 200; payload := Empty |}
  | Undefined => {| status := 404; payload := Text "Model schema not found." |}
  end.

(** [app.get('/api/models/:modelName', authMiddleware, ...)].
    [dynamicApiRouter] is mounted on [/api] before the route, so the
    request first goes through its layers and reaches the route only if
    none of them answers; a request the route does not match falls
    through. *)
Definition model_schema (req : Request Payload) (s : Server) : option Response * Server :=
  match handle (dynamicApiRouter s) req (database s) with
  | Send res d => (Some res, set_database s d)
  | Throw e d => (Some (uncaught e), set_database s d)
  | Next req' d =>
      match method req', match_path "/models/:modelName" (target req') (params_id req') with
      | GET, Some (Some modelName) =>
          match authMiddleware req' d with
          | Next _ d' => (Some (model_schema_handler modelName s), set_database s d')
          | Send res d' => (Some res, set_database s d')
          | Throw e d' => (Some (uncaught e), set_database s d')
          end
      | _, _ => (None, set_database s d)
      end
  end.

End Server.

Arguments Next {TS B} req db.
Arguments Send {TS B} res db.
Arguments Throw {TS B} e db.
Arguments Own {TS} entry.
Arguments Inherited {TS}.
Arguments Undefined {TS}.

(** ** In-memory collaborators

    A Table Store and a File Store small enough to run: tables are lists
    of rows, the configuration directory is a list of named files.  Each
    can be told to fail, the database by being unreachable and the
    directory by refusing writes, with a given error message. *)
Module Mem.

Record MemModel := {
  mem_name : string;
  mem_schema : gmap string Attribute;
  mem_table : string }.

Record MemItem := {
  item_table : string;
  item_id : string;
  item_values : list (string * string) }.

Record MemDB := {
  unreachable : option string;
  tables : gmap string (list MemItem);
  next_id : nat }.

Definition with_tables (db : MemDB) (t : gmap string (list MemItem)) : MemDB :=
  {| unreachable := unreachable db; tables := t; next_id := next_id db |}.

(** Every operation needs the connection. *)
Definition connected {A} (db : MemDB) (op : Outcome A * MemDB) : Outcome A * MemDB :=
  match unreachable db with
  | Some msg => (Rejected {| message := msg |}, db)
  | None => op
  end.

Definition no_table {A} (t : string) : Outcome A :=
  Rejected {| message := "relation " +:+ t +:+ " does not exist" |}.

Definition mem_define (modelName : string) (schema : gmap string Attribute)
    (tableName : string) : Outcome MemModel :=
  Resolved {| mem_name := modelName; mem_schema := schema; mem_table := tableName |}.

Definition mem_sync (m : MemModel) (db : MemDB) : Outcome unit * MemDB :=
  connected db
    match tables db !! mem_table m with
    | Some _ => (Resolved tt, db)
    | None => (Resolved tt, with_tables db (<[mem_table m := []]> (tables db)))
    end.

Definition mem_create (m : MemModel) (values : list (string * string)) (db : MemDB)
    : Outcome MemItem * MemDB :=
  connected db
    match tables db !! mem_table m with
    | Some rows =>
        let item := {| item_table := mem_table m;
                       item_id := NilEmpty.string_of_uint (Nat.to_uint (next_id db));
                       item_values := values |} in
        (Resolved item,
         {| unreachable := unreachable db;
            tables := <[mem_table m := (rows ++ [item])%list]> (tables db);
            next_id := S (next_id db) |})
    | None => (no_table (mem_table m), db)
    end.

Definition mem_findAll (m : MemModel) (db : MemDB) : Outcome (list MemItem) * MemDB :=
  connected db
    match tables db !! mem_table m with
    | Some rows => (Resolved rows, db)
    | None => (no_table (mem_table m), db)
    end.

Definition has_id (pk : option string) (item : MemItem) : bool :=
  match pk with
  | Some i => String.eqb (item_id item) i
  | None => false
  end.

Definition mem_findByPk (m : MemModel) (pk : option string) (db : MemDB)
    : Outcome (option MemItem) * MemDB :=
  connected db
    match tables db !! mem_table m with
    | Some rows => (Resolved (head (filter (λ item, has_id pk item = true) rows)), db)
    | None => (no_table (mem_table m), db)
    end.

Definition mem_update (item : MemItem) (values : list (string * string)) (db : MemDB)
    : Outcome MemItem * MemDB :=
  connected db
    match tables db !! item_table item with
    | Some rows =>
        let item' := {| item_table := item_table item; item_id := item_id item;
                        item_values := values |} in
        (Resolved item',
         with_tables db
           (<[item_table item :=
                map (λ row, if String.eqb (item_id row) (item_id item) then item' else row) rows]>
              (tables db)))
    | None => (no_table (item_table item), db)
    end.

Definition mem_destroy (item : MemItem) (db : MemDB) : Outcome unit * MemDB :=
  connected db
    match tables db !! item_table item with
    | Some rows =>
        (Resolved tt,
         with_tables db
           (<[item_table item :=
                filter (λ row, String.eqb (item_id row) (item_id item) = false) rows]>
              (tables db)))
    | None => (no_table (item_table item), db)
    end.

Definition table_store : TableStore :=
  {| DB := MemDB; Model := MemModel; Item := MemItem; Payload := list (string * string);
     define := mem_define; sync := mem_sync; create := mem_create;
     findAll := mem_findAll; findByPk := mem_findByPk;
     update := mem_update; destroy := mem_destroy |}.

(** A file holds a definition or text that does not parse. *)
Inductive FileContent :=
  | Parses (c : ModelConfig)
  | Malformed.

Record MemFS := {
  read_only : option string;
  dir : list (string * FileContent) }.

Fixpoint file_lookup (file : string) (d : list (string * FileContent)) : option FileContent :=
  match d with
  | [] => None
  | (f, c) :: rest => if String.eqb f file then Some c else file_lookup file rest
  end.

Fixpoint file_write (file : string) (c : FileContent) (d : list (string * FileContent))
    : list (string * FileContent) :=
  match d with
  | [] => [(file, c)]
  | (f, c') :: rest =>
      if String.eqb f file then (f, c) :: rest else (f, c') :: file_write file c rest
  end.

Definition mem_ensureDir (fs : MemFS) : Outcome unit * MemFS := (Resolved tt, fs).

Definition mem_readdir (fs : MemFS) : Outcome (list string) * MemFS :=
  (Resolved (map fst (dir fs)), fs).

Definition mem_readJson (file : string) (fs : MemFS) : Outcome ModelConfig * MemFS :=
  match file_lookup file (dir fs) with
  | Some (Parses c) => (Resolved c, fs)
  | Some Malformed => (Rejected {| message := file +:+ ": Unexpected token in JSON" |}, fs)
  | None => (Rejected {| message := "ENOENT: no such file or directory" |}, fs)
  end.

Definition mem_writeJson (file : string) (c : ModelConfig) (fs : MemFS)
    : Outcome unit * MemFS :=
  match read_only fs with
  | Some msg => (Rejected {| message := msg |}, fs)
  | None => (Resolved tt, {| read_only := None; dir := file_write file (Parses c) (dir fs) |})
  end.

Definition file_store : FileStore :=
  {| FS := MemFS; ensureDir := mem_ensureDir; readdir := mem_readdir;
     readJson := mem_readJson; writeJson := mem_writeJson |}.

(** A [toLowerCase] for strings of ASCII characters. *)
Definition lower_ascii (c : ascii) : ascii :=
  let n := nat_of_ascii c in
  if (65 <=? n)%nat && (n <=? 90)%nat then ascii_of_nat (n + 32) else c.

Fixpoint mem_toLowerCase (s : string) : string :=
  match s with
  | EmptyString => EmptyString
  | String c r => String (lower_ascii c) (mem_toLowerCase r)
  end.

Definition javascript : JavaScript := {| toLowerCase := mem_toLowerCase |}.

(** An Express for paths [/name] and [/name/:param] whose name and
    parameter are made of letters, digits, [_] and [-]: it compiles
    these and no other path, and a compiled path matches the same name
    without regard to case. *)
Definition plain_ascii (c : ascii) : bool :=
  let n := nat_of_ascii c in
  ((48 <=? n)%nat && (n <=? 57)%nat) || ((65 <=? n)%nat && (n <=? 90)%nat)
  || ((97 <=? n)%nat && (n <=? 122)%nat) || (n =? 95)%nat || (n =? 45)%nat.

Fixpoint plain (s : string) : bool :=
  match s with
  | EmptyString => false
  | String c EmptyString => plain_ascii c
  | String c r => plain_ascii c && plain r
  end.

(** A string up to its first [/], and what follows that [/]. *)
Fixpoint segment (s : string) : string * option string :=
  match s with
  | EmptyString => (EmptyString, None)
  | String c r =>
      if Ascii.eqb c "/" then (EmptyString, Some r)
      else (String c (segment r).1, (segment r).2)
  end.

(** The name in a path, and the parameter after it, if any. *)
Definition path_parts (path : string) : option (string * option string) :=
  match path with
  | String "/" r =>
      match segment r with
      | (base, None) => if plain base then Some (base, None) else None
      | (base, Some (String ":" param)) =>
          if plain base && plain param then Some (base, Some param) else None
      | (_, Some _) => None
      end
  | _ => None
  end.

Definition mem_compile_path (path : string) : option Error :=
  match path_parts path with
  | Some _ => None
  | None => Some {| message := "Invalid regular expression: " +:+ path |}
  end.

Definition mem_match_path (path target : string) (rest : option string)
    : option (option string) :=
  match path_parts path with
  | Some (base, param) =>
      if String.eqb (mem_toLowerCase base) (mem_toLowerCase target) then
        match param, rest with
        | None, None => Some None
        | Some _, Some value => Some (Some value)
        | _, _ => None
        end
      else None
  | None => None
  end.

Definition express : Express :=
  {| compile_path := mem_compile_path; match_path := mem_match_path |}.

#[local] Existing Instance table_store.
#[local] Existing Instance file_store.
#[local] Existing Instance express.
#[local] Existing Instance javascript.

(** A server that has registered nothing yet. *)
Definition boot (db : @DB table_store) (fs : @FS file_store)
    : @Server table_store file_store :=
  @Build_Server table_store file_store ∅ [] db fs [].

Definition empty_db : @DB table_store :=
  {| unreachable := None; tables := ∅; next_id := 1 |}.

Definition down_db (msg : string) : @DB table_store :=
  {| unreachable := Some msg; tables := ∅; next_id := 1 |}.

Definition empty_fs : @FS file_store := {| read_only := None; dir := [] |}.

(** The README's example model and two narrower variants of it. *)
Definition product_fields : list Field :=
  [ {| field_name := "name"; field_type := "string"; required := true;
       default := None; unique := false |};
    {| field_name := "price"; field_type := "number"; required := true;
       default := None; unique := false |};
    {| field_name := "inStock"; field_type := "boolean"; required := false;
       default := None; unique := false |} ].

Definition product : ModelConfig :=
  {| name := "Product"; tableName := None; fields := product_fields;
     rbac := {[ "Admin" := ["all"]; "Manager" := ["read"; "create"; "update"];
                "Viewer" := ["read"] ]} |}.

Definition product_read_only : ModelConfig :=
  {| name := "Product"; tableName := None; fields := product_fields;
     rbac := {[ "Admin" := ["all"]; "Manager" := ["read"]; "Viewer" := ["read"] ]} |}.

Definition customer : ModelConfig :=
  {| name := "Customer"; tableName := None;
     fields := [ {| field_name := "email"; field_type := "string"; required := true;
                    default := None; unique := true |} ];
     rbac := {[ "Admin" := ["all"]; "Manager" := ["read"]; "Viewer" := [] ]} |}.

(** A model whose name Express cannot compile as a path. *)
Definition unroutable : ModelConfig :=
  {| name := "("; tableName := Some "groups"; fields := [];
     rbac := {[ "Admin" := ["all"] ]} |}.

(** A model whose name is that of the schema endpoint. *)
Definition catalogue : ModelConfig :=
  {| name := "Models"; tableName := None;
     fields := [ {| field_name := "title"; field_type := "string"; required := true;
                    default := None; unique := false |} ];
     rbac := {[ "Admin" := ["all"]; "Manager" := ["read"]; "Viewer" := ["read"] ]} |}.

Definition as_body (c : ModelConfig) : PublishBody :=
  {| body_name := Some (name c); body_tableName := tableName c;
     body_fields := Some (fields c); body_rbac := Some (rbac c) |}.

Definition alice : User := {| user_id := "1"; username := "alice"; role := Admin |}.
Definition mona : User := {| user_id := "2"; username := "mona"; role := Manager |}.
Definition victor : User := {| user_id := "3"; username := "victor"; role := Viewer |}.

Definition request {B} (m : Method) (t : string) (i : option string) (u : User) (b : B)
    : Request B :=
  {| method := m; target := t; params_id := i; credential := Verified u;
     body := b; user := None |}.

(** The model [registerModel] defines for [product], and a row for it. *)
Definition products_model : @Model table_store :=
  {| mem_name := "Product"; mem_schema := schema_of product_fields;
     mem_table := "products" |}.

Definition pen : @Payload table_store := [("name", "Pen"); ("price", "1.5")].

(** The connection to the database is lost. *)
Definition go_down (msg : string) (db : @DB table_store) : @DB table_store :=
  {| unreachable := Some msg; tables := tables db; next_id := next_id db |}.

(** [POST /api/models/publish] with a definition as body. *)
Definition publish_request (u : User) (b : PublishBody) : Request PublishBody :=
  request POST "models" (Some "publish") u b.

(** Bodies the publish form can send: no field at all, the same field
    name twice, and a field type outside the four known ones. *)
Definition no_fields : PublishBody :=
  {| body_name := Some "Ghost"; body_tableName := None; body_fields := Some [];
     body_rbac := Some ∅ |}.

Definition twin_fields : PublishBody :=
  {| body_name := Some "Twin"; body_tableName := None;
     body_fields :=
       Some [ {| field_name := "code"; field_type := "string"; required := true;
                 default := None; unique := false |};
              {| field_name := "code"; field_type := "number"; required := false;
                 default := None; unique := false |} ];
     body_rbac := Some ∅ |}.

Definition blob_field : PublishBody :=
  {| body_name := Some "Upload"; body_tableName := None;
     body_fields :=
       Some [ {| field_name := "data"; field_type := "blob"; required := true;
                 default := None; unique := false |} ];
     body_rbac := Some ∅ |}.

Definition no_rbac : PublishBody :=
  {| body_name := Some "Product"; body_tableName := None;
     body_fields := Some product_fields; body_rbac := None |}.

(** A configuration directory whose first file does not parse. *)
Definition broken_first : @FS file_store :=
  {| read_only := None;
     dir := [("Broken.json", Malformed); ("Product.json", Parses product)] |}.

Definition broken_last : @FS file_store :=
  {| read_only := None;
     dir := [("Product.json", Parses product); ("Broken.json", Malformed)] |}.

(** The server after an Admin published [product] on a fresh boot, and
    after the same Admin then published [product_read_only]. *)
Definition published_once : @Server table_store file_store :=
  (publish (publish_request alice (as_body product)) (boot empty_db empty_fs)).2.

Definition published_twice : @Server table_store file_store :=
  (publish (publish_request alice (as_body product_read_only)) published_once).2.

(** What the registry says a role may do on a model. *)
Definition registry_allows (s : @Server table_store file_store) (modelName : string)
    (r : Role) (action : string) : option bool :=
  (λ entry, isAllowed (rbac (config entry)) r action) <$> dynamicModels s !! modelName.

End Mem.

(** ** The type mapper as specified

    The closed enumeration of field types, and the mapper in the
    specification's words: total on the enumeration, [UnknownFieldType]
    elsewhere.  It is compared with [getSequelizeType] below. *)
Definition field_types : list string := ["string"; "number"; "boolean"; "date"].

Definition UnknownFieldType : Error := {| message := "UnknownFieldType" |}.

Definition mapType_spec (fieldType : string) : Outcome DataType :=
  if String.eqb fieldType "string" then Resolved STRING
  else if String.eqb fieldType "number" then Resolved FLOAT
  else if String.eqb fieldType "boolean" then Resolved BOOLEAN
  else if String.eqb fieldType "date" then Resolved DATE
  else Rejected UnknownFieldType.

(** * The rest of the application

    What surrounds the registry: the server's start, the invariants the
    registry and the router keep, the two authentication routers and the
    parts of the client that decide what is sent to the server. *)

Section Lifecycle.

Context `{TS : TableStore} `{FSt : FileStore} `{Ex : Express} `{Js : JavaScript}.

(** The last middleware of each route. *)
Definition handler_of (k : HandlerKind) (DynamicModel : Model) : Middleware Payload :=
  match k with
  | Create => createHandler DynamicModel
  | ListAll => listHandler DynamicModel
  | GetById => getHandler DynamicModel
  | Update => updateHandler DynamicModel
  | Delete => deleteHandler DynamicModel
  end.

(** The statuses each route can answer with: those of [authMiddleware]
    and [createRbacMiddleware], then those of its handler. *)
Definition answers_of (k : HandlerKind) : list nat :=
  [401; 400; 403] ++
  match k with
  | Create => [201; 400]
  | ListAll => [200; 500]
  | GetById => [404; 200; 500]
  | Update => [404; 200; 400]
  | Delete => [404; 204; 500]
  end.

(** [startServer]: the static [User] model is synced, the definitions are
    loaded, and [app.listen] is called; an exception on the way is logged
    and the server does not listen.  The result tells whether it listens. *)
Definition startServer (User : Model) (PORT : string) (s : Server) : bool * Server :=
  match (on_database (sync User);; loadModelsFromFiles) s with
  | (Resolved _, s') =>
      (true, set_console s' (console s' ++ ["🚀 Server running on http://localhost:" +:+ PORT]))
  | (Rejected error, s') =>
      (false, set_console s' (console s' ++ ["Unable to start server: " +:+ message error]))
  end.

(** *** Invariants of the registry and the router *)

(** Every layer of the router was added by [registerModel]. *)
Definition built_by_registration (r : Route) : Prop :=
  ∃ modelConfig DynamicModel k, r = crudRoute modelConfig DynamicModel k.

Definition routes_registered (s : Server) : Prop :=
  Forall built_by_registration (dynamicApiRouter s).

(** An entry is stored under the name of its definition. *)
Definition keys_are_names (s : Server) : Prop :=
  ∀ modelName entry, dynamicModels s !! modelName = Some entry →
                     name (config entry) = modelName.

Definition consistent (s : Server) : Prop :=
  routes_registered s ∧ keys_are_names s.

(** How the registry and the router of [s] can differ from those of an
    earlier state: by registrations, each storing one entry under its name
    and adding, at the end, its five routes or the first of them. *)
Inductive grows (s : Server) : Server → Prop :=
  | grows_same s' :
      dynamicModels s' = dynamicModels s →
      dynamicApiRouter s' = dynamicApiRouter s →
      grows s s'
  | grows_register s1 s' modelConfig DynamicModel added :
      grows s s1 →
      dynamicModels s'
      = <[name modelConfig := {| model := DynamicModel; config := modelConfig |}]>
          (dynamicModels s1) →
      added `prefix_of` crudRoutes modelConfig DynamicModel →
      dynamicApiRouter s' = (dynamicApiRouter s1 ++ added)%list →
      grows s s'.

(** *** What the handlers answer *)

(** The status a handler gives a failure of the Table Store: the
    [catch] of the create and update handlers sends 400, the others 500. *)
Definition failure_status (k : HandlerKind) : nat :=
  match k with
  | Create | Update => 400
  | ListAll | GetById | Delete => 500
  end.

(** The first call a handler makes to the Table Store fails. *)
Definition first_call_fails (k : HandlerKind) (DynamicModel : Model)
    (req : Request Payload) (db : DB) (e : Error) (db' : DB) : Prop :=
  match k with
  | Create => create DynamicModel (body req) db = (Rejected e, db')
  | ListAll => findAll DynamicModel db = (Rejected e, db')
  | GetById | Update | Delete =>
      findByPk DynamicModel (params_id req) db = (Rejected e, db')
  end.

(** The first layer of a list that takes a request, with the
    [req.params.id] it sets. *)
Fixpoint first_match (layers : list Route) (req : Request Payload)
    : option (Route * option string) :=
  match layers with
  | [] => None
  | r :: rest =>
      match route_match r req with
      | Some params => Some (r, params)
      | None => first_match rest req
      end
  end.

(** The routes of a list that Express compiles, up to the first it
    cannot, with the error of that one. *)
Fixpoint compiled (routes : list Route) : list Route * option Error :=
  match routes with
  | [] => ([], None)
  | r :: rest =>
      match compile_path (route_path r) with
      | Some error => ([], Some error)
      | None => (r :: (compiled rest).1, (compiled rest).2)
      end
  end.

End Lifecycle.

(** ** Authentication: [/auth/signup] and [/auth/login] *)

(** [['Admin', 'Manager', 'Viewer'].includes(role)] *)
Definition parse_role (role : string) : option Role :=
  if String.eqb role "Admin" then Some Admin
  else if String.eqb role "Manager" then Some Manager
  else if String.eqb role "Viewer" then Some Viewer
  else None.

(** A row of the [User] model. *)
Record UserRow := {
  row_id : string;
  row_username : string;
  row_password : string;
  row_role : Role }.

(** What the two routes use of Sequelize, bcrypt and jsonwebtoken.
    [User_create] is [User.create], which runs the [beforeCreate] hook;
    [jwt_sign] signs the claims with [JWT_SECRET] for one hour. *)
Class Identity := {
  Users : Type;
  Token : Type;
  User_create : string → string → Role → Users → Outcome UserRow * Users;
  User_findOne : string → Users → Outcome (option UserRow) * Users;
  bcrypt_compare : string → string → Outcome bool;
  jwt_sign : User → Outcome Token }.

Record SignupBody := {
  signup_username : string;
  signup_password : string;
  signup_role : string }.

Record LoginBody := {
  login_username : string;
  login_password : string }.

Section Auth.

Context `{Id : Identity}.

Inductive AuthBody :=
  | AuthText (s : string)
  | AuthUser (id username : string) (r : Role)
  | AuthToken (token : Token).

Record AuthResponse := { auth_status : nat; auth_body : AuthBody }.

(** The user table and the console; a console entry is the list of the
    arguments of one [console.log], an object given by its field values. *)
Record AuthState := { users : Users; auth_console : list (list string) }.

Definition auth_log (line : list string) (st : AuthState) : AuthState :=
  {| users := users st; auth_console := auth_console st ++ [line] |}.

Definition with_users (st : AuthState) (u : Users) : AuthState :=
  {| users := u; auth_console := auth_console st |}.

(** [User.prototype.isValidPassword] *)
Definition isValidPassword (user : UserRow) (password : string) : Outcome bool :=
  bcrypt_compare password (row_password user).

(** [app.post('/auth/signup', ...)] *)
Definition signup (b : SignupBody) (st : AuthState) : AuthResponse * AuthState :=
  let st := auth_log ["--- SIGNUP ATTEMPT ---"] st in
  let st := auth_log ["1. Received data:"; signup_username b; signup_role b] st in
  match parse_role (signup_role b) with
  | None =>
      ({| auth_status := 400; auth_body := AuthText "Invalid role." |},
       auth_log ["2. Error: Invalid role."] st)
  | Some r =>
      match User_create (signup_username b) (signup_password b) r (users st) with
      | (Resolved user, u) =>
          ({| auth_status := 201;
              auth_body := AuthUser (row_id user) (row_username user) (row_role user) |},
           auth_log ["3. User.create SUCCEEDED. User ID:"; row_id user] (with_users st u))
      | (Rejected error, u) =>
          ({| auth_status := 400; auth_body := AuthText (message error) |},
           auth_log [message error]
             (auth_log ["4. Error during signup:"; message error] (with_users st u)))
      end
  end.

Definition invalid_login : AuthResponse :=
  {| auth_status := 400; auth_body := AuthText "Invalid username or password." |}.

Definition login_error (error : Error) (st : AuthState) : AuthResponse * AuthState :=
  ({| auth_status := 500; auth_body := AuthText (message error) |},
   auth_log ["6. Error during login:"; message error] st).

(** [app.post('/auth/login', ...)] *)
Definition login (b : LoginBody) (st : AuthState) : AuthResponse * AuthState :=
  let st := auth_log ["--- LOGIN ATTEMPT ---"] st in
  let st := auth_log ["1. Received data:"; login_username b] st in
  match User_findOne (login_username b) (users st) with
  | (Rejected error, u) => login_error error (with_users st u)
  | (Resolved None, u) =>
      (invalid_login, auth_log ["2. Error: User not found in database."] (with_users st u))
  | (Resolved (Some user), u) =>
      let st := auth_log ["3. User found. Checking password..."] (with_users st u) in
      match isValidPassword user (login_password b) with
      | Rejected error => login_error error st
      | Resolved false =>
          (invalid_login, auth_log ["4. Error: Password comparison failed."] st)
      | Resolved true =>
          let st := auth_log ["5. Login SUCCEEDED."] st in
          match jwt_sign {| user_id := row_id user; username := row_username user;
                            role := row_role user |} with
          | Resolved token => ({| auth_status := 200; auth_body := AuthToken token |}, st)
          | Rejected error => login_error error st
          end
      end
  end.

End Auth.

(** ** The e-mail authentication router

    The router with [/signup] and [/login] over the [users] table of a
    PostgreSQL pool. *)

Record PgUser := {
  pg_id : string;
  pg_name : string;
  pg_email : string;
  pg_password : string }.

(** The two queries of the router, with bcrypt and jsonwebtoken; the
    token signs the id and the e-mail address. *)
Class Pool := {
  PG : Type;
  PgToken : Type;
  select_by_email : string → PG → Outcome (list PgUser) * PG;
  insert_user : string → string → string → PG → Outcome unit * PG;
  pg_hash : string → PG → Outcome string * PG;
  pg_compare : string → string → Outcome bool;
  pg_sign : string → string → Outcome PgToken }.

Record PgSignupBody := { pg_body_name : string; pg_body_email : string; pg_body_password : string }.

Record PgLoginBody := { pg_login_email : string; pg_login_password : string }.

Section PgAuth.

Context `{P : Pool}.

Inductive PgBody :=
  | PgMessage (s : string)
  | PgError (s : string)
  | PgTokenBody (token : PgToken).

Record PgResponse := { pg_status : nat; pg_body : PgBody }.

Definition pg_failed (err : Error) : PgResponse :=
  {| pg_status := 500; pg_body := PgError (message err) |}.

(** [router.post("/signup", ...)] *)
Definition pg_signup (b : PgSignupBody) (pg : PG) : PgResponse * PG :=
  match select_by_email (pg_body_email b) pg with
  | (Rejected err, pg) => (pg_failed err, pg)
  | (Resolved (_ :: _), pg) =>
      ({| pg_status := 400; pg_body := PgMessage "User already exists" |}, pg)
  | (Resolved [], pg) =>
      match pg_hash (pg_body_password b) pg with
      | (Rejected err, pg) => (pg_failed err, pg)
      | (Resolved hashed, pg) =>
          match insert_user (pg_body_name b) (pg_body_email b) hashed pg with
          | (Rejected err, pg) => (pg_failed err, pg)
          | (Resolved _, pg) =>
              ({| pg_status := 201; pg_body := PgMessage "User created successfully" |}, pg)
          end
      end
  end.

Definition pg_invalid : PgResponse :=
  {| pg_status := 400; pg_body := PgMessage "Invalid credentials" |}.

(** [router.post("/login", ...)] *)
Definition pg_login (b : PgLoginBody) (pg : PG) : PgResponse * PG :=
  match select_by_email (pg_login_email b) pg with
  | (Rejected err, pg) => (pg_failed err, pg)
  | (Resolved [], pg) => (pg_invalid, pg)
  | (Resolved (user :: _), pg) =>
      match pg_compare (pg_login_password b) (pg_password user) with
      | Rejected err => (pg_failed err, pg)
      | Resolved false => (pg_invalid, pg)
      | Resolved true =>
          match pg_sign (pg_id user) (pg_email user) with
          | Rejected err => (pg_failed err, pg)
          | Resolved token => ({| pg_status := 200; pg_body := PgTokenBody token |}, pg)
          end
      end
  end.

End PgAuth.

(** ** The client *)

(** [can] of the data page: whether the button of an action is shown to
    the user decoded from the token, under the schema the page fetched. *)
Definition can (schema : option ModelConfig) (user : option User) (action : string) : bool :=
  match schema, user with
  | Some schema, Some user =>
      match rbac schema !! role_name (role user) with
      | Some permissions => includes permissions action || includes permissions "all"
      | None => false
      end
  | _, _ => false
  end.

(** [new Set(arr)], as the array of its elements in insertion order. *)
Fixpoint newSet (arr : list string) : list string :=
  match arr with
  | [] => []
  | x :: rest => x :: filter (λ y, y ≠ x) (newSet rest)
  end.

(** [Set.prototype.add] and [Set.prototype.delete] *)
Definition set_add (s : list string) (x : string) : list string :=
  if includes s x then s else (s ++ [x])%list.

Definition set_delete (s : list string) (x : string) : list string :=
  filter (λ y, y ≠ x) s.

(** [handleRbacChange] of the model builder: a checkbox of the
    permission grid is ticked or cleared. *)
Definition handleRbacChange (role action : string) (isChecked : bool)
    (rbac : gmap string (list string)) : gmap string (list string) :=
  let permissions := newSet (match rbac !! role with Some arr => arr | None => [] end) in
  <[role := if isChecked then set_add permissions action
            else set_delete permissions action]> rbac.

(** The body [handleSubmit] of the model builder posts to the publish
    endpoint: fields with an empty name are left out. *)
Definition builder_body (modelName : string) (fields : list Field)
    (rbac : gmap string (list string)) : PublishBody :=
  {| body_name := Some modelName;
     body_tableName := None;
     body_fields := Some (filter (λ f, field_name f ≠ "") fields);
     body_rbac := Some rbac |}.

(** The permission grid the builder starts with. *)
Definition initial_rbac : gmap string (list string) :=
  {[ "Admin" := ["all"]; "Manager" := ["read"; "create"; "update"]; "Viewer" := ["read"] ]}.

(** ** In-memory authentication

    A user table and a pool small enough to run: rows in a list, a hash
    that marks the password, a token that is the claims it signs. *)
Module MemAuth.

Definition hashed (password : string) : string := "$2a$10$" +:+ password.

Definition has_username (username : string) (row : UserRow) : bool :=
  String.eqb (row_username row) username.

(** [User.create]: the username is unique, and the [beforeCreate] hook
    hashes a password that is not empty. *)
Definition mem_User_create (username password : string) (r : Role) (rows : list UserRow)
    : Outcome UserRow * list UserRow :=
  if existsb (has_username username) rows
  then (Rejected {| message := "Validation error" |}, rows)
  else
    let user := {| row_id := NilEmpty.string_of_uint (Nat.to_uint (S (length rows)));
                   row_username := username;
                   row_password := if String.eqb password "" then "" else hashed password;
                   row_role := r |} in
    (Resolved user, (rows ++ [user])%list).

Definition mem_User_findOne (username : string) (rows : list UserRow)
    : Outcome (option UserRow) * list UserRow :=
  (Resolved (List.find (has_username username) rows), rows).

Definition mem_compare (password hash : string) : Outcome bool :=
  Resolved (String.eqb (hashed password) hash).

Definition identity : Identity :=
  {| Users := list UserRow; Token := User;
     User_create := mem_User_create; User_findOne := mem_User_findOne;
     bcrypt_compare := mem_compare; jwt_sign := Resolved |}.

Definition has_email (email : string) (row : PgUser) : bool :=
  String.eqb (pg_email row) email.

Definition mem_select (email : string) (rows : list PgUser)
    : Outcome (list PgUser) * list PgUser :=
  (Resolved (List.filter (has_email email) rows), rows).

Definition mem_insert (name email password : string) (rows : list PgUser)
    : Outcome unit * list PgUser :=
  (Resolved tt,
   (rows ++ [ {| pg_id := NilEmpty.string_of_uint (Nat.to_uint (S (length rows)));
                 pg_name := name; pg_email := email; pg_password := password |} ])%list).

Definition mem_hash (password : string) (rows : list PgUser)
    : Outcome string * list PgUser :=
  (Resolved (hashed password), rows).

Definition pool : Pool :=
  {| PG := list PgUser; PgToken := string * string;
     select_by_email := mem_select; insert_user := mem_insert; pg_hash := mem_hash;
     pg_compare := mem_compare; pg_sign := λ id email, Resolved (id, email) |}.

#[local] Existing Instance identity.
#[local] Existing Instance pool.

Definition nobody : @AuthState identity := {| users := []; auth_console := [] |}.

Definition carol_signs_up : SignupBody :=
  {| signup_username := "carol"; signup_password := "s3cret"; signup_role := "Manager" |}.

Definition root_signs_up : SignupBody :=
  {| signup_username := "eve"; signup_password := "x"; signup_role := "Root" |}.

(** The user table once carol has signed up. *)
Definition with_carol : @AuthState identity := (signup carol_signs_up nobody).2.

Definition carol_logs_in : LoginBody :=
  {| login_username := "carol"; login_password := "s3cret" |}.

Definition carol_mistypes : LoginBody :=
  {| login_username := "carol"; login_password := "secret" |}.

Definition dave_signs_up : PgSignupBody :=
  {| pg_body_name := "Dave"; pg_body_email := "dave@example.org";
     pg_body_password := "hunter2" |}.

Definition with_dave : @PG pool := (pg_signup dave_signs_up []).2.

Definition dave_logs_in : PgLoginBody :=
  {| pg_login_email := "dave@example.org"; pg_login_password := "hunter2" |}.

Definition dave_mistypes : PgLoginBody :=
  {| pg_login_email := "dave@example.org"; pg_login_password := "hunter3" |}.

End MemAuth.

(** * Properties *)

Section Properties.

Context `{TS : TableStore} `{FSt : FileStore} `{Ex : Express} `{Js : JavaScript}.

(** ** Permission evaluation *)

Lemma includes_elem_of (xs : list string) (x : string) :
  includes xs x = true ↔ x ∈ xs.
Proof.
  induction xs as [|y ys IH]; simpl.
  - split; [discriminate | intros Hin; inversion Hin].
  - rewrite orb_true_iff, IH, String.eqb_eq, elem_of_cons. intuition congruence.
Qed.

(** C2. A role absent from the matrix is allowed nothing; a role present
    in it is allowed an action exactly when its action list contains the
    action or contains "all"; so a list with "all" allows every action,
    whatever string the action is. *)
Theorem isAllowed_spec (matrix : gmap string (list string)) (userRole : Role)
    (action : string) :
  (matrix !! role_name userRole = None → isAllowed matrix userRole action = false)
  ∧ (∀ permissions : list string,
       matrix !! role_name userRole = Some permissions →
       (isAllowed matrix userRole action = true
        ↔ action ∈ permissions ∨ "all" ∈ permissions)
       ∧ ("all" ∈ permissions → isAllowed matrix userRole action = true)).
Proof.
  unfold isAllowed. split.
  - intros ->. reflexivity.
  - intros permissions ->.
    rewrite orb_true_iff, !includes_elem_of. tauto.
Qed.

(** The middleware lets a request through exactly when [isAllowed] holds,
    and the request and the database pass unchanged. *)
Lemma createRbacMiddleware_next {B} (modelConfig : ModelConfig) (action : string)
    (req : Request B) (u : User) (db : DB) :
  user req = Some u →
  createRbacMiddleware modelConfig action req db
  = if isAllowed (rbac modelConfig) (role u) action
    then Next req db
    else Send (forbidden (role u) action (name modelConfig)) db.
Proof. intros Hu. unfold createRbacMiddleware. rewrite Hu. reflexivity. Qed.

(** ** CRUD handlers *)

Lemma stack_of_crudRoute (modelConfig : ModelConfig) (DynamicModel : Model)
    (k : HandlerKind) :
  ∃ handler,
    stack (crudRoute modelConfig DynamicModel k)
    = [authMiddleware; createRbacMiddleware modelConfig (action_of k); handler].
Proof. destruct k; eexists; reflexivity. Qed.

Lemma run_stack_denied (modelConfig : ModelConfig) (DynamicModel : Model)
    (k : HandlerKind) (req : Request Payload) (u : User) (db : DB) :
  credential req = Verified u →
  isAllowed (rbac modelConfig) (role u) (action_of k) = false →
  run_stack (stack (crudRoute modelConfig DynamicModel k)) req db
  = Send (forbidden (role u) (action_of k) (name modelConfig)) db.
Proof.
  intros Hcred Hdenied.
  destruct (stack_of_crudRoute modelConfig DynamicModel k) as [handler ->].
  simpl. unfold authMiddleware. rewrite Hcred.
  rewrite (createRbacMiddleware_next _ _ _ u) by reflexivity.
  simpl. rewrite Hdenied. reflexivity.
Qed.

(** C3. Each of the five routes of a model answers a caller whose role
    the model's matrix does not allow the route's action with 403, and
    leaves the database as it was: the handler is not run. *)
Theorem denied_before_storage (modelConfig : ModelConfig) (DynamicModel : Model)
    (k : HandlerKind) (req : Request Payload) (u : User) (db : DB) :
  credential req = Verified u →
  isAllowed (rbac modelConfig) (role u) (action_of k) = false →
  run_stack (stack (crudRoute modelConfig DynamicModel k)) req db
  = Send (forbidden (role u) (action_of k) (name modelConfig)) db
  ∧ status (forbidden (role u) (action_of k) (name modelConfig)) = 403.
Proof.
  intros Hcred Hdenied. split; [|reflexivity].
  exact (run_stack_denied modelConfig DynamicModel k req u db Hcred Hdenied).
Qed.

(** ** The server state *)

(** A settled computation is its outcome paired with the state it left. *)
Lemma settled_as {A} (m : Async A) (s : Server) (o : Outcome A) :
  (m s).1 = o → m s = (o, (m s).2).
Proof. intros <-. destruct (m s); reflexivity. Qed.

Lemma set_database_id (s : Server) : set_database s (database s) = s.
Proof. destruct s; reflexivity. Qed.

Lemma set_dynamicApiRouter_id (s : Server) :
  set_dynamicApiRouter s (dynamicApiRouter s) = s.
Proof. destruct s; reflexivity. Qed.

(** [add_routes] adds the routes Express compiles, up to the first it
    cannot. *)
Lemma add_routes_eq (routes : list Route) (s : Server) :
  add_routes routes s
  = (match (compiled routes).2 with
     | None => Resolved tt
     | Some e => Rejected e
     end,
     set_dynamicApiRouter s (dynamicApiRouter s ++ (compiled routes).1)).
Proof.
  revert s. induction routes as [|r rest IH]; intros s.
  - simpl. rewrite app_nil_r, set_dynamicApiRouter_id. reflexivity.
  - simpl. unfold mbind, Async_bind, await, add_route.
    destruct (compile_path (route_path r)) as [e|].
    + simpl. rewrite app_nil_r, set_dynamicApiRouter_id. reflexivity.
    + rewrite IH. simpl. rewrite <- app_assoc. reflexivity.
Qed.

Lemma compiled_prefix (routes : list Route) : (compiled routes).1 `prefix_of` routes.
Proof.
  induction routes as [|r rest IH]; [reflexivity|].
  simpl. destruct (compile_path (route_path r)); [apply prefix_nil|].
  by apply prefix_cons.
Qed.

Lemma compiled_None (routes : list Route) :
  (compiled routes).2 = None → (compiled routes).1 = routes.
Proof.
  induction routes as [|r rest IH]; [reflexivity|].
  simpl. destruct (compile_path (route_path r)); [discriminate|].
  simpl. intros Hrest. by rewrite IH.
Qed.

Lemma compiled_Some (routes : list Route) (e : Error) :
  (compiled routes).2 = Some e →
  ∃ r rest, routes = ((compiled routes).1 ++ r :: rest)%list
            ∧ compile_path (route_path r) = Some e.
Proof.
  induction routes as [|r rest IH]; [discriminate|].
  simpl. destruct (compile_path (route_path r)) as [e'|] eqn:Hr.
  - intros [= ->]. by exists r, rest.
  - simpl. intros Hrest. destruct (IH Hrest) as (r' & rest' & Heq & Hr').
    exists r', rest'. split; [|exact Hr']. simpl. by rewrite <- Heq.
Qed.

(** [registerModel], step by step. *)
Lemma registerModel_eq (modelConfig : ModelConfig) (s : Server) :
  registerModel modelConfig s
  = match define (name modelConfig) (schema_of (fields modelConfig)) (table_of modelConfig) with
    | Rejected e => (Rejected e, s)
    | Resolved DynamicModel =>
        let entry := {| model := DynamicModel; config := modelConfig |} in
        let routes := compiled (crudRoutes modelConfig DynamicModel) in
        match routes.2 with
        | Some e =>
            (Rejected e,
             {| dynamicModels := <[name modelConfig := entry]> (dynamicModels s);
                dynamicApiRouter := dynamicApiRouter s ++ routes.1;
                database := database s;
                disk := disk s;
                console := console s |})
        | None =>
            ((sync DynamicModel (database s)).1,
             {| dynamicModels := <[name modelConfig := entry]> (dynamicModels s);
                dynamicApiRouter := dynamicApiRouter s ++ routes.1;
                database := (sync DynamicModel (database s)).2;
                disk := disk s;
                console := console s
                           ++ ["Registered routes for model: " +:+ name modelConfig] |})
        end
    end.
Proof.
  unfold registerModel, mbind, Async_bind, await, settle, store.
  destruct (define _ _ _) as [DynamicModel|e]; [|reflexivity].
  rewrite add_routes_eq. cbv zeta.
  destruct (compiled (crudRoutes modelConfig DynamicModel)) as [added [e|]];
    [reflexivity|].
  unfold console_log, on_database. simpl.
  destruct (sync DynamicModel (database s)) as [[[]|e] d]; reflexivity.
Qed.

Lemma registerModel_disk (modelConfig : ModelConfig) (s : Server) :
  disk (registerModel modelConfig s).2 = disk s.
Proof.
  rewrite registerModel_eq. destruct (define _ _ _); [|reflexivity].
  cbv zeta. destruct (compiled _).2; reflexivity.
Qed.

(** What a registration does to the registry: nothing when the model
    cannot be defined, one insertion otherwise. *)
Lemma registerModel_models (modelConfig : ModelConfig) (s : Server) :
  dynamicModels (registerModel modelConfig s).2
  = match define (name modelConfig) (schema_of (fields modelConfig)) (table_of modelConfig) with
    | Resolved DynamicModel =>
        <[name modelConfig := {| model := DynamicModel; config := modelConfig |}]>
          (dynamicModels s)
    | Rejected _ => dynamicModels s
    end.
Proof.
  rewrite registerModel_eq. destruct (define _ _ _); [|reflexivity].
  cbv zeta. destruct (compiled _).2; reflexivity.
Qed.


(** C4, as the code has it.  A registration that fails never touches the
    entries of other names nor the configuration directory.  If it fails
    while the model is defined, the server is unchanged.  Otherwise the
    new entry has already replaced the entry of that name.  If it then
    fails while the routes are added, on a path Express cannot compile,
    the routes added before that one stay and the database is not
    touched; if it fails in the sync with the database, the five routes
    have already been added. *)
Theorem failed_registration (modelConfig : ModelConfig) (s s' : Server) (e : Error) :
  registerModel modelConfig s = (Rejected e, s') →
  (∀ other, other ≠ name modelConfig →
            dynamicModels s' !! other = dynamicModels s !! other)
  ∧ disk s' = disk s
  ∧ ((define (name modelConfig) (schema_of (fields modelConfig)) (table_of modelConfig)
      = Rejected e ∧ s' = s)
     ∨ ∃ DynamicModel,
         define (name modelConfig) (schema_of (fields modelConfig)) (table_of modelConfig)
         = Resolved DynamicModel
         ∧ dynamicModels s'
           = <[name modelConfig := {| model := DynamicModel; config := modelConfig |}]>
               (dynamicModels s)
         ∧ ((∃ added r rest,
               crudRoutes modelConfig DynamicModel = (added ++ r :: rest)%list
               ∧ compile_path (route_path r) = Some e
               ∧ dynamicApiRouter s' = (dynamicApiRouter s ++ added)%list
               ∧ database s' = database s)
            ∨ ((sync DynamicModel (database s)).1 = Rejected e
               ∧ dynamicApiRouter s'
                 = (dynamicApiRouter s ++ crudRoutes modelConfig DynamicModel)%list))).
Proof.
  rewrite registerModel_eq.
  destruct (define _ _ _) as [DynamicModel|e'].
  - cbv zeta.
    pose proof (compiled_Some (crudRoutes modelConfig DynamicModel)) as Hsome.
    pose proof (compiled_None (crudRoutes modelConfig DynamicModel)) as Hnone.
    destruct (compiled (crudRoutes modelConfig DynamicModel)) as [added [e'|]];
      simpl in *.
    + intros [= -> <-]. simpl. split; [|split].
      * intros other Hother. rewrite lookup_insert_ne by congruence. reflexivity.
      * reflexivity.
      * right. exists DynamicModel. split; [reflexivity|]. split; [reflexivity|]. left.
        destruct (Hsome e eq_refl) as (r & rest & Heq & Hr).
        by exists added, r, rest.
    + intros [= Hsync <-]. simpl. split; [|split].
      * intros other Hother. rewrite lookup_insert_ne by congruence. reflexivity.
      * reflexivity.
      * right. exists DynamicModel. split; [reflexivity|]. split; [reflexivity|]. right.
        rewrite (Hnone eq_refl). auto.
  - intros [= -> <-]. split; [|split]; auto.
Qed.

(** ** The publish endpoint *)

(** The two middleware in front of the publish handler. *)
Lemma publish_gate (req : Request PublishBody) (s : Server) :
  publish req s
  = match credential req with
    | NoToken =>
        ({| status := 401; payload := Text "Access denied. No token provided." |}, s)
    | InvalidToken => ({| status := 400; payload := Text "Invalid token." |}, s)
    | Verified u =>
        match role u with
        | Admin => publish_handler (set_user req u) s
        | _ => ({| status := 403; payload := Text "Forbidden. Admin access required." |}, s)
        end
    end.
Proof.
  destruct s. unfold publish, run_stack, authMiddleware, adminOnly.
  destruct (credential req) as [| |u]; try reflexivity.
  simpl. destruct (role u); reflexivity.
Qed.

(** C10. A caller whose token carries a role other than Admin is answered
    403 by the publish endpoint, and the server, with its registry, its
    routes and the configuration directory, is as it was before. *)
Theorem publish_requires_admin (req : Request PublishBody) (u : User) (s : Server) :
  credential req = Verified u →
  role u ≠ Admin →
  publish req s
  = ({| status := 403; payload := Text "Forbidden. Admin access required." |}, s).
Proof.
  intros Hcred Hrole. rewrite publish_gate, Hcred.
  destruct (role u); [congruence|reflexivity..].
Qed.

(** Whatever the request, a publish that changes the registry, the routes
    or the configuration directory was made with an Admin token. *)
Lemma publish_changes_need_admin (req : Request PublishBody) (s : Server) :
  (publish req s).2 ≠ s →
  ∃ u, credential req = Verified u ∧ role u = Admin.
Proof.
  rewrite publish_gate. intros Hchanged.
  destruct (credential req) as [| |u]; [by destruct Hchanged..|].
  exists u. split; [reflexivity|].
  destruct (role u); [reflexivity|by destruct Hchanged..].
Qed.

(** ** The type mapper *)

(** C7, as the code has it.  The mapper sends the four field types to
    STRING, FLOAT, BOOLEAN and DATE, agreeing there with the specified
    mapper, and sends every other string to STRING; it never fails. *)
Theorem getSequelizeType_total (fieldType : string) :
  getSequelizeType "string" = STRING
  ∧ getSequelizeType "number" = FLOAT
  ∧ getSequelizeType "boolean" = BOOLEAN
  ∧ getSequelizeType "date" = DATE
  ∧ (fieldType ∈ field_types → mapType_spec fieldType = Resolved (getSequelizeType fieldType))
  ∧ (fieldType ∉ field_types → getSequelizeType fieldType = STRING).
Proof.
  repeat (split; [reflexivity|]). split.
  - unfold field_types. rewrite !elem_of_cons, elem_of_nil.
    intros [->|[->|[->|[->|[]]]]]; reflexivity.
  - unfold field_types. rewrite !elem_of_cons, elem_of_nil. intros Hnot.
    unfold getSequelizeType.
    repeat match goal with
    | |- context [String.eqb fieldType ?c] =>
        destruct (String.eqb_spec fieldType c) as [->|_]; [exfalso; apply Hnot; tauto|]
    end.
    reflexivity.
Qed.

(** ** Validation and the publish handler *)

Lemma warn_if_registered_resolves (modelName : string) (s : Server) :
  (warn_if_registered modelName s).1 = Resolved tt.
Proof. unfold warn_if_registered. destruct (get_model s modelName); reflexivity. Qed.

(** The publish handler on a body that passes the check. *)
Lemma publish_try_eq (req : Request PublishBody) (modelConfig : ModelConfig) (s : Server) :
  validate (body req) = Some modelConfig →
  publish_try req s
  = match writeJson (name modelConfig +:+ ".json") modelConfig (disk s) with
    | (Rejected e, d) => (Rejected e, set_disk s d)
    | (Resolved _, d) =>
        match registerModel modelConfig
                (warn_if_registered (name modelConfig) (set_disk s d)).2 with
        | (Rejected e, s') => (Rejected e, s')
        | (Resolved _, s') =>
            (Resolved {| status := 201;
                         payload := JsonMessage ("Model " +:+ name modelConfig
                                                 +:+ " published successfully.") |}, s')
        end
    end.
Proof.
  intros Hvalid. unfold publish_try. rewrite Hvalid.
  unfold mbind, Async_bind, await, on_disk.
  destruct (writeJson _ _ _) as [[[]|e] d]; [|reflexivity].
  pose proof (warn_if_registered_resolves (name modelConfig) (set_disk s d)) as Hwarn.
  destruct (warn_if_registered (name modelConfig) (set_disk s d)) as [o s1].
  simpl in Hwarn. subst o. simpl.
  destruct (registerModel _ _) as [[[]|e'] s']; reflexivity.
Qed.

Lemma warn_if_registered_disk (modelName : string) (s : Server) :
  disk (warn_if_registered modelName s).2 = disk s.
Proof. unfold warn_if_registered. destruct (get_model s modelName); reflexivity. Qed.

(** C6, as the code has it.  The check passes exactly when the name is a
    non-empty string and the field list and the permission matrix are
    present; the definition then registered is the submitted one.  A body
    that fails the check is answered 400 and changes nothing.  The field
    list may be empty, and field names and field types are not looked at. *)
Theorem validate_spec (b : PublishBody) :
  (is_Some (validate b)
   ↔ (∃ modelName, body_name b = Some modelName ∧ modelName ≠ "")
     ∧ is_Some (body_fields b) ∧ is_Some (body_rbac b))
  ∧ (∀ modelConfig, validate b = Some modelConfig →
       body_name b = Some (name modelConfig)
       ∧ body_fields b = Some (fields modelConfig)
       ∧ body_rbac b = Some (rbac modelConfig))
  ∧ (validate b = None →
     ∀ (req : Request PublishBody) (u : User) (s : Server),
       credential req = Verified u → role u = Admin → body req = b →
       publish req s
       = ({| status := 400; payload := Text "Invalid model configuration." |}, s)).
Proof.
  split; [|split].
  - unfold validate. split.
    + destruct (body_name b) as [n|]; [|by intros [? [=]]].
      destruct (body_fields b) as [fs|]; [|by intros [? [=]]].
      destruct (body_rbac b) as [m|]; [|by intros [? [=]]].
      destruct (String.eqb_spec n "") as [->|Hne]; [by intros [? [=]]|].
      intros _. eauto 7.
    + intros ([n [-> Hne]] & [fs ->] & [m ->]).
      destruct (String.eqb_spec n "") as [->|_]; [done|]. eauto.
  - intros modelConfig. unfold validate.
    destruct (body_name b) as [n|], (body_fields b) as [fs|], (body_rbac b) as [m|];
      try discriminate.
    destruct (String.eqb n ""); [discriminate|]. intros [= <-]. auto.
  - intros Hinvalid req u s Hcred Hadmin <-.
    rewrite publish_gate, Hcred, Hadmin.
    unfold publish_handler, publish_try. simpl. rewrite Hinvalid. reflexivity.
Qed.

(** C8, as the code has it.  For an Admin's publish of a body that passes
    the check: when writing the file fails with an error, the answer is
    status 500 with that error's message; when the file is written and
    the registration then fails with an error, the answer is again status
    500 with that error's message, and the written file stays on disk.
    The answer is the same function of the error in both cases. *)
Theorem publish_failure_response (req : Request PublishBody) (u : User)
    (modelConfig : ModelConfig) (s : Server) :
  credential req = Verified u →
  role u = Admin →
  validate (body req) = Some modelConfig →
  (∀ e d,
     writeJson (name modelConfig +:+ ".json") modelConfig (disk s) = (Rejected e, d) →
     (publish req s).1 = {| status := 500; payload := Text (message e) |})
  ∧ (∀ e d s',
       writeJson (name modelConfig +:+ ".json") modelConfig (disk s) = (Resolved tt, d) →
       registerModel modelConfig (warn_if_registered (name modelConfig) (set_disk s d)).2
       = (Rejected e, s') →
       (publish req s).1 = {| status := 500; payload := Text (message e) |}
       ∧ disk (publish req s).2 = d).
Proof.
  intros Hcred Hadmin Hvalid.
  rewrite publish_gate, Hcred, Hadmin. unfold publish_handler.
  rewrite (publish_try_eq _ modelConfig) by exact Hvalid.
  split.
  - intros e d ->. reflexivity.
  - intros e d s' -> Hreg.
    pose proof (registerModel_disk modelConfig
                  (warn_if_registered (name modelConfig) (set_disk s d)).2) as Hdisk.
    rewrite warn_if_registered_disk in Hdisk.
    rewrite Hreg in *. simpl in *. auto.
Qed.

(** ** The router under redefinition *)

Lemma handle_app_settled (layers more : list Route) (req : Request Payload) (db : DB) :
  (∀ req' db', handle layers req db ≠ Next req' db') →
  handle (layers ++ more) req db = handle layers req db.
Proof.
  revert req db. induction layers as [|r rest IH]; intros req db Hsettled.
  - exfalso. exact (Hsettled req db eq_refl).
  - simpl in *. destruct (route_match r req) as [params|]; [|auto].
    destruct (run_stack (stack r) (set_params_id req params) db) as [req' db'| |]; auto.
Qed.

(** A request the router answered before a registration gets the same
    answer after it: the routes a registration adds come last, and the
    router never reaches them.  This holds whether or not the
    registration succeeds. *)
Lemma registration_keeps_answers (modelConfig : ModelConfig) (s : Server)
    (req : Request Payload) (db : DB) :
  (∀ req' db', handle (dynamicApiRouter s) req db ≠ Next req' db') →
  handle (dynamicApiRouter (registerModel modelConfig s).2) req db
  = handle (dynamicApiRouter s) req db.
Proof.
  intros Hsettled. rewrite registerModel_eq.
  destruct (define _ _ _) as [DynamicModel|e]; [|reflexivity].
  cbv zeta. destruct (compiled _) as [added [e|]]; simpl;
    apply handle_app_settled, Hsettled.
Qed.

(** ** The boot loader *)

(** A file that cannot be read ends the loop: no later file is read. *)
Lemma load_each_rejected (file : string) (rest : list string) (s : Server)
    (e : Error) (d : FS) :
  endsWith file ".json" = true →
  readJson file (disk s) = (Rejected e, d) →
  load_each (file :: rest) s = (Rejected e, set_disk s d).
Proof.
  intros Hjson Hread. simpl. rewrite Hjson.
  unfold mbind, Async_bind, await, on_disk. rewrite Hread. reflexivity.
Qed.

(** The loop over a list of files in two parts: the second part runs
    only if no file of the first part failed. *)
Lemma load_each_app (before after : list string) (s : Server) :
  load_each (before ++ after) s
  = match load_each before s with
    | (Resolved _, s') => load_each after s'
    | (Rejected e, s') => (Rejected e, s')
    end.
Proof.
  revert s. induction before as [|file rest IH]; intros s; [reflexivity|].
  simpl. unfold mbind, Async_bind, await in *.
  destruct (if endsWith file ".json" then _ else _) as [[[]|e] s1]; [apply IH|reflexivity].
Qed.

(** Once a file fails to load, the files listed after it leave no
    trace: the loader ends in the state the failure left, with the error
    logged, whatever those files hold. *)
Lemma loadModelsFromFiles_stops (before after : list string) (file : string)
    (s s1 : Server) (d0 d1 d2 : FS) (e : Error) :
  ensureDir (disk s) = (Resolved tt, d0) →
  readdir d0 = (Resolved (before ++ file :: after)%list, d1) →
  load_each before (set_disk s d1) = (Resolved tt, s1) →
  endsWith file ".json" = true →
  readJson file (disk s1) = (Rejected e, d2) →
  loadModelsFromFiles s
  = (Resolved tt,
     set_console (set_disk s1 d2)
       (console s1 ++ ["Error loading models: " +:+ message e])).
Proof.
  intros Hdir Hlist Hbefore Hjson Hread.
  unfold loadModelsFromFiles, try_catch, mbind, Async_bind, await, on_disk.
  rewrite Hdir. simpl. rewrite Hlist. simpl.
  replace (set_disk (set_disk s d0) d1) with (set_disk s d1) by (destruct s; reflexivity).
  rewrite load_each_app, Hbefore.
  rewrite (load_each_rejected file after s1 e d2 Hjson Hread).
  reflexivity.
Qed.

End Properties.

(** * Scenarios on the in-memory collaborators *)

Section Scenarios.

#[local] Existing Instance Mem.table_store.
#[local] Existing Instance Mem.file_store.
#[local] Existing Instance Mem.express.
#[local] Existing Instance Mem.javascript.

Import Mem.

(** ** Permission evaluation *)

Lemma isAllowed_spec_witness :
  rbac product !! role_name Admin = Some ["all"]
  ∧ isAllowed (rbac product) Admin "export" = true.
Proof.
  split; [reflexivity|].
  destruct (isAllowed_spec (rbac product) Admin "export") as [_ Hpresent].
  destruct (Hpresent ["all"] eq_refl) as [_ Hall].
  apply Hall. constructor.
Defined.

Lemma denied_before_storage_witness :
  isAllowed (rbac product) Viewer (action_of Create) = false
  ∧ run_stack (stack (crudRoute product products_model Create))
      (request POST "product" None victor pen) empty_db
    = Send (forbidden Viewer "create" "Product") empty_db.
Proof.
  split; [reflexivity|].
  apply (denied_before_storage product products_model Create
           (request POST "product" None victor pen) victor empty_db);
    reflexivity.
Defined.

(** ** Registration and lookup *)


(** C4, as stated, fails.  The database becomes unreachable after
    [product] was published; registering [product_read_only] then fails in
    the sync, yet the registry already holds the new definition under
    "Product" and the router has five more routes. *)
Lemma failed_sync_replaces_entry :
  let s := set_database published_once (go_down "ECONNREFUSED" (database published_once)) in
  let r := registerModel product_read_only s in
  r.1 = Rejected {| message := "ECONNREFUSED" |}
  ∧ registry_allows s "Product" Manager "create" = Some true
  ∧ registry_allows r.2 "Product" Manager "create" = Some false
  ∧ dynamicModels r.2 ≠ dynamicModels s
  ∧ length (dynamicApiRouter s) = 5
  ∧ length (dynamicApiRouter r.2) = 10.
Proof.
  intros s r.
  assert (Hbefore : registry_allows s "Product" Manager "create" = Some true)
    by (vm_compute; reflexivity).
  assert (Hafter : registry_allows r.2 "Product" Manager "create" = Some false)
    by (vm_compute; reflexivity).
  split; [vm_compute; reflexivity|].
  split; [exact Hbefore|]. split; [exact Hafter|].
  split; [|split; vm_compute; reflexivity].
  intros Hsame. unfold registry_allows in Hbefore, Hafter.
  rewrite Hsame, Hbefore in Hafter. discriminate.
Qed.

(** The other way a registration fails after the entry is stored: the
    name of [unroutable] is no path Express compiles, so the first route
    cannot be added.  The entry is stored, no route is added and the
    database is not touched. *)
Lemma unroutable_name_is_stored :
  let s := published_once in
  let r := registerModel unroutable s in
  r.1 = Rejected {| message := "Invalid regular expression: /(" |}
  ∧ (config <$> dynamicModels r.2 !! "(") = Some unroutable
  ∧ length (dynamicApiRouter s) = 5
  ∧ length (dynamicApiRouter r.2) = 5
  ∧ tables (database r.2) = tables (database s).
Proof. repeat split; vm_compute; reflexivity. Qed.

Lemma failed_registration_witness :
  let s := set_database published_once (go_down "ECONNREFUSED" (database published_once)) in
  let s' := (registerModel customer s).2 in
  registerModel customer s = (Rejected {| message := "ECONNREFUSED" |}, s')
  ∧ (config <$> dynamicModels s' !! "Product") = Some product
  ∧ disk s' = disk s.
Proof.
  intros s s'.
  assert (Hfail : registerModel customer s = (Rejected {| message := "ECONNREFUSED" |}, s'))
    by (apply settled_as; vm_compute; reflexivity).
  split; [exact Hfail|].
  destruct (failed_registration customer s s' _ Hfail) as (Hothers & Hdisk & _).
  split; [|exact Hdisk].
  rewrite (Hothers "Product") by discriminate. vm_compute. reflexivity.
Defined.

(** ** Publishing *)

Lemma publish_requires_admin_witness :
  role mona ≠ Admin
  ∧ publish (publish_request mona (as_body product)) (boot empty_db empty_fs)
    = ({| status := 403; payload := Text "Forbidden. Admin access required." |},
       boot empty_db empty_fs).
Proof.
  split; [discriminate|].
  apply (publish_requires_admin (publish_request mona (as_body product)) mona
           (boot empty_db empty_fs)); [reflexivity|discriminate].
Defined.

(** C6, as stated, fails.  An Admin publishes a definition with no field,
    one with the same field name twice, and one with the field type
    "blob": each passes the check, is answered 201 and is registered. *)
Lemma unchecked_definitions_are_published :
  let s := boot empty_db empty_fs in
  let published (b : PublishBody) (modelName : string) :=
    status (publish (publish_request alice b) s).1 = 201
    ∧ ((fields ∘ config) <$> dynamicModels (publish (publish_request alice b) s).2 !! modelName)
      = body_fields b in
  (body_fields no_fields = Some [] ∧ published no_fields "Ghost")
  ∧ (map field_name <$> body_fields twin_fields = Some ["code"; "code"]
     ∧ published twin_fields "Twin")
  ∧ (map field_type <$> body_fields blob_field = Some ["blob"]
     ∧ ("blob" ∉ field_types)
     ∧ published blob_field "Upload").
Proof.
  intros s published. unfold published.
  repeat split; try (vm_compute; reflexivity).
  unfold field_types. intros Hin.
  repeat (apply elem_of_cons in Hin as [[=]|Hin]). by apply elem_of_nil in Hin.
Qed.

Lemma validate_spec_witness :
  validate no_rbac = None
  ∧ publish (publish_request alice no_rbac) (boot empty_db empty_fs)
    = ({| status := 400; payload := Text "Invalid model configuration." |},
       boot empty_db empty_fs).
Proof.
  split; [reflexivity|].
  destruct (validate_spec no_rbac) as (_ & _ & Hrejected).
  apply (Hrejected eq_refl (publish_request alice no_rbac) alice); reflexivity.
Defined.

(** C8, as stated, fails.  The same publish on a server whose
    configuration directory refuses the write, and on a server whose
    database refuses the sync: the answers are equal, though only the
    second server has the definition on disk. *)
Lemma partial_publish_answer_is_generic :
  let req := publish_request alice (as_body product) in
  let write_fails := boot empty_db {| read_only := Some "ETIMEDOUT"; dir := [] |} in
  let sync_fails := boot (down_db "ETIMEDOUT") empty_fs in
  (publish req sync_fails).1 = (publish req write_fails).1
  ∧ (publish req sync_fails).1 = {| status := 500; payload := Text "ETIMEDOUT" |}
  ∧ dir (disk (publish req write_fails).2) = []
  ∧ dir (disk (publish req sync_fails).2) = [("Product.json", Parses product)].
Proof. repeat split; vm_compute; reflexivity. Qed.

Lemma publish_failure_response_witness :
  let req := publish_request alice (as_body product) in
  let s := boot (down_db "ETIMEDOUT") empty_fs in
  validate (body req) = Some product
  ∧ (publish req s).1 = {| status := 500; payload := Text "ETIMEDOUT" |}
  ∧ dir (disk (publish req s).2) = [("Product.json", Parses product)].
Proof.
  intros req s.
  assert (Hvalid : validate (body req) = Some product) by reflexivity.
  split; [exact Hvalid|].
  destruct (publish_failure_response req alice product s eq_refl eq_refl Hvalid)
    as [_ Hpartial].
  destruct (Hpartial {| message := "ETIMEDOUT" |}
              {| read_only := None; dir := [("Product.json", Parses product)] |}
              (registerModel product
                 (warn_if_registered "Product"
                    (set_disk s {| read_only := None;
                                   dir := [("Product.json", Parses product)] |})).2).2)
    as [Hres Hdisk]; [vm_compute; reflexivity|apply settled_as; vm_compute; reflexivity|].
  split; [exact Hres|]. rewrite Hdisk. reflexivity.
Defined.

(** ** The type mapper *)

(** C7, as stated, fails.  "blob" is outside the enumeration, the
    specified mapper rejects it, and [getSequelizeType] returns STRING. *)
Lemma unknown_type_is_not_rejected :
  ("blob" ∉ field_types)
  ∧ mapType_spec "blob" = Rejected UnknownFieldType
  ∧ getSequelizeType "blob" = STRING
  ∧ Resolved (getSequelizeType "blob") ≠ mapType_spec "blob".
Proof.
  repeat split; try discriminate.
  unfold field_types. intros Hin.
  repeat (apply elem_of_cons in Hin as [[=]|Hin]). by apply elem_of_nil in Hin.
Qed.

Lemma getSequelizeType_total_witness :
  ("json" ∉ field_types) ∧ getSequelizeType "json" = STRING.
Proof.
  assert (Hout : "json" ∉ field_types).
  { unfold field_types. intros Hin.
    repeat (apply elem_of_cons in Hin as [[=]|Hin]). by apply elem_of_nil in Hin. }
  split; [exact Hout|].
  apply (getSequelizeType_total "json"). exact Hout.
Defined.

(** ** Redefinition *)

(** C1 on the code.  An Admin publishes [product], under which a Manager
    may create, then publishes [product_read_only], under which a Manager
    may only read.  The registry then holds the second definition, and
    the Manager's next create request is still answered 201 and inserts a
    row: the router reaches the routes of the first publish first. *)
Theorem narrowed_matrix_not_enforced :
  let req := request POST "product" None mona pen in
  (config <$> dynamicModels published_twice !! "Product") = Some product_read_only
  ∧ isAllowed (rbac product_read_only) Manager "create" = false
  ∧ (status <$> (crud req published_twice).1) = Some 201
  ∧ (length <$> tables (database published_twice) !! "products") = Some 0
  ∧ (length <$> tables (database (crud req published_twice).2) !! "products") = Some 1.
Proof. repeat split; vm_compute; reflexivity. Qed.

(** ** Boot *)

(** C9 on the code.  The configuration directory lists a file that does
    not parse before [Product.json]: the error is logged, the loader
    returns, and [product] is not registered.  Listed in the other
    order, [product] is registered. *)
Theorem malformed_file_stops_boot :
  let after fs := loadModelsFromFiles (boot empty_db fs) in
  (after broken_first).1 = Resolved tt
  ∧ console (after broken_first).2
    = ["Error loading models: Broken.json: Unexpected token in JSON"]
  ∧ dynamicModels (after broken_first).2 !! "Product" = None
  ∧ dynamicApiRouter (after broken_first).2 = []
  ∧ (config <$> dynamicModels (after broken_last).2 !! "Product") = Some product.
Proof. repeat split; vm_compute; reflexivity. Qed.

End Scenarios.

(** * Properties of the routes and the router *)

Section RouterProperties.

Context `{TS : TableStore} `{FSt : FileStore} `{Ex : Express} `{Js : JavaScript}.

(** A route in one equation: the token, then the matrix of the
    definition the route was built from, then the handler. *)
Lemma crudRoute_run (modelConfig : ModelConfig) (DynamicModel : Model) (k : HandlerKind)
    (req : Request Payload) (db : DB) :
  run_stack (stack (crudRoute modelConfig DynamicModel k)) req db
  = match credential req with
    | NoToken =>
        Send {| status := 401; payload := Text "Access denied. No token provided." |} db
    | InvalidToken => Send {| status := 400; payload := Text "Invalid token." |} db
    | Verified u =>
        if isAllowed (rbac modelConfig) (role u) (action_of k)
        then handler_of k DynamicModel (set_user req u) db
        else Send (forbidden (role u) (action_of k) (name modelConfig)) db
    end.
Proof.
  destruct k; simpl; unfold authMiddleware;
    (destruct (credential req) as [| |u]; try reflexivity);
    rewrite (createRbacMiddleware_next _ _ _ u) by reflexivity;
    (destruct (isAllowed _ _ _); [|reflexivity]);
    match goal with |- match ?h with _ => _ end = _ => destruct h; reflexivity end.
Qed.

(** What a handler answers. *)
Lemma handler_of_answers (k : HandlerKind) (DynamicModel : Model)
    (req : Request Payload) (db : DB) :
  ∃ res db', handler_of k DynamicModel req db = Send res db'
             ∧ status res ∈ answers_of k.
Proof.
  destruct k; simpl;
    unfold createHandler, listHandler, getHandler, updateHandler, deleteHandler.
  - destruct (create _ _ _) as [[item|e] db']; eexists _, _; (split; [reflexivity|]);
      simpl; set_solver.
  - destruct (findAll _ _) as [[items|e] db']; eexists _, _; (split; [reflexivity|]);
      simpl; set_solver.
  - destruct (findByPk _ _ _) as [[[item|]|e] db']; eexists _, _; (split; [reflexivity|]);
      simpl; set_solver.
  - destruct (findByPk _ _ _) as [[[item|]|e] db'].
    + destruct (update _ _ _) as [[item'|e] db'']; eexists _, _; (split; [reflexivity|]);
        simpl; set_solver.
    + eexists _, _; (split; [reflexivity|]); simpl; set_solver.
    + eexists _, _; (split; [reflexivity|]); simpl; set_solver.
  - destruct (findByPk _ _ _) as [[[item|]|e] db'].
    + destruct (destroy _ _) as [[[]|e] db'']; eexists _, _; (split; [reflexivity|]);
        simpl; set_solver.
    + eexists _, _; (split; [reflexivity|]); simpl; set_solver.
    + eexists _, _; (split; [reflexivity|]); simpl; set_solver.
Qed.

Lemma crudRoute_sends (modelConfig : ModelConfig) (DynamicModel : Model) (k : HandlerKind)
    (req : Request Payload) (db : DB) :
  ∃ res db', run_stack (stack (crudRoute modelConfig DynamicModel k)) req db = Send res db'
             ∧ status res ∈ answers_of k.
Proof.
  rewrite crudRoute_run.
  destruct (credential req) as [| |u].
  - eexists _, _; split; [reflexivity|]. unfold answers_of. simpl. set_solver.
  - eexists _, _; split; [reflexivity|]. unfold answers_of. simpl. set_solver.
  - destruct (isAllowed _ _ _).
    + apply handler_of_answers.
    + eexists _, _; split; [reflexivity|]. unfold answers_of. simpl. set_solver.
Qed.

(** A handler whose first call to the Table Store fails sends the
    error's message, with status 400 for create and update and 500 for
    the others, and leaves the database as the failed call left it. *)
Lemma handler_of_first_call_fails (k : HandlerKind) (DynamicModel : Model)
    (req : Request Payload) (db : DB) (e : Error) (db' : DB) :
  first_call_fails k DynamicModel req db e db' →
  handler_of k DynamicModel req db
  = Send {| status := failure_status k; payload := Text (message e) |} db'.
Proof.
  destruct k; simpl;
    unfold createHandler, listHandler, getHandler, updateHandler, deleteHandler;
    intros ->; reflexivity.
Qed.

(** X1. Whatever the request and whatever the Table Store does, a route
    of a model sends a response: it never calls [next()] past its handler
    and never throws, and the status is one of those listed for the
    route.  For a caller the matrix allows: when the handler's first call
    to the Table Store fails the answer is the error's message, with
    status 400 from the create and update routes and 500 from the list,
    get and delete routes; when the row is found and the update then
    fails the answer is 400, and when the delete then fails it is 500;
    a create that succeeds is answered 201 with the new row. *)
Theorem crudRoute_always_answers (modelConfig : ModelConfig) (DynamicModel : Model)
    (k : HandlerKind) (req : Request Payload) (db : DB) :
  (∃ res db',
     run_stack (stack (crudRoute modelConfig DynamicModel k)) req db = Send res db'
     ∧ status res ∈ answers_of k)
  ∧ (∀ u, credential req = Verified u →
          isAllowed (rbac modelConfig) (role u) (action_of k) = true →
      (∀ e db',
         first_call_fails k DynamicModel req db e db' →
         run_stack (stack (crudRoute modelConfig DynamicModel k)) req db
         = Send {| status := failure_status k; payload := Text (message e) |} db')
      ∧ (∀ item e db' db'',
           k = Update →
           findByPk DynamicModel (params_id req) db = (Resolved (Some item), db') →
           update item (body req) db' = (Rejected e, db'') →
           run_stack (stack (crudRoute modelConfig DynamicModel k)) req db
           = Send {| status := 400; payload := Text (message e) |} db'')
      ∧ (∀ item e db' db'',
           k = Delete →
           findByPk DynamicModel (params_id req) db = (Resolved (Some item), db') →
           destroy item db' = (Rejected e, db'') →
           run_stack (stack (crudRoute modelConfig DynamicModel k)) req db
           = Send {| status := 500; payload := Text (message e) |} db'')
      ∧ (∀ item db',
           k = Create →
           create DynamicModel (body req) db = (Resolved item, db') →
           run_stack (stack (crudRoute modelConfig DynamicModel k)) req db
           = Send {| status := 201; payload := JsonItem item |} db')).
Proof.
  split; [apply crudRoute_sends|].
  intros u Hcred Hallowed. rewrite crudRoute_run, Hcred, Hallowed.
  split; [|split; [|split]].
  - intros e db' Hfails. apply handler_of_first_call_fails. destruct k; exact Hfails.
  - intros item e db' db'' -> Hfound Hupdate. simpl. unfold updateHandler. simpl.
    rewrite Hfound, Hupdate. reflexivity.
  - intros item e db' db'' -> Hfound Hdestroy. simpl. unfold deleteHandler. simpl.
    rewrite Hfound, Hdestroy. reflexivity.
  - intros item db' -> Hcreate. simpl. unfold createHandler. simpl.
    rewrite Hcreate. reflexivity.
Qed.

(** ** The first matching route decides *)

Lemma handle_app (layers more : list Route) (req : Request Payload) (db : DB) :
  handle (layers ++ more) req db
  = match handle layers req db with
    | Next req' db' => handle more req' db'
    | settled => settled
    end.
Proof.
  revert req db. induction layers as [|r rest IH]; intros req db; [reflexivity|].
  simpl. destruct (route_match r req) as [params|]; [|apply IH].
  destruct (run_stack (stack r) (set_params_id req params) db); auto.
Qed.

(** In a router built by registrations, the first route that matches the
    request answers it, reading the [req.params] the match set; a request
    no route matches passes unchanged. *)
Lemma handle_find (layers : list Route) (req : Request Payload) (db : DB) :
  Forall built_by_registration layers →
  handle layers req db
  = match first_match layers req with
    | Some (r, params) => run_stack (stack r) (set_params_id req params) db
    | None => Next req db
    end.
Proof.
  induction 1 as [|r rest (modelConfig & DynamicModel & k & ->) _ IH]; [reflexivity|].
  simpl. destruct (route_match _ req) as [params|]; [|exact IH].
  destruct (crudRoute_sends modelConfig DynamicModel k (set_params_id req params) db)
    as (res & db' & -> & _).
  reflexivity.
Qed.

Lemma handle_no_match (layers : list Route) (req : Request Payload) (db : DB) :
  Forall (λ r, route_match r req = None) layers →
  handle layers req db = Next req db.
Proof.
  induction 1 as [|r rest Hr _ IH]; [reflexivity|]. simpl. rewrite Hr. exact IH.
Qed.

Lemma first_match_app (layers more : list Route) (req : Request Payload) :
  first_match (layers ++ more) req
  = match first_match layers req with
    | Some found => Some found
    | None => first_match more req
    end.
Proof.
  induction layers as [|r rest IH]; [reflexivity|].
  simpl. destruct (route_match r req); [reflexivity|exact IH].
Qed.

(** The route found is the first of the list that matches. *)
Lemma first_match_Some (layers : list Route) (req : Request Payload) (r : Route)
    (params : option string) :
  first_match layers req = Some (r, params) →
  ∃ before after,
    layers = (before ++ r :: after)%list
    ∧ Forall (λ r', route_match r' req = None) before
    ∧ route_match r req = Some params.
Proof.
  induction layers as [|r0 rest IH]; [discriminate|].
  simpl. destruct (route_match r0 req) as [params0|] eqn:Hr0.
  - intros [= <- <-]. exists [], rest. split; [reflexivity|]. split; [constructor|exact Hr0].
  - intros Hfind. destruct (IH Hfind) as (before & after & -> & Hnone & Hmatch).
    exists (r0 :: before), after. split; [reflexivity|].
    split; [by constructor|exact Hmatch].
Qed.

Lemma first_match_None (layers : list Route) (req : Request Payload) :
  first_match layers req = None ↔ Forall (λ r, route_match r req = None) layers.
Proof.
  induction layers as [|r rest IH]; [by split; [constructor|]|].
  simpl. rewrite Forall_cons. destruct (route_match r req) as [params|].
  - split; [discriminate|]. by intros [[=] _].
  - rewrite IH. tauto.
Qed.

(** The routes of two definitions whose names differ at most in letter
    case have the same methods and paths, so they match the same
    requests. *)
Lemma route_match_same_base (c1 c2 : ModelConfig) (m1 m2 : Model) (k : HandlerKind)
    (req : Request Payload) :
  toLowerCase (name c1) = toLowerCase (name c2) →
  route_match (crudRoute c1 m1 k) req = route_match (crudRoute c2 m2 k) req.
Proof.
  intros Hsame. unfold route_match, route_path. destruct k; simpl; rewrite Hsame; reflexivity.
Qed.

(** When Express compiles every path, all the routes are added. *)
Lemma compiled_all (routes : list Route) :
  (∀ r, r ∈ routes → compile_path (route_path r) = None) →
  compiled routes = (routes, None).
Proof.
  induction routes as [|r rest IH]; [reflexivity|].
  intros Hall. simpl. rewrite (Hall r) by constructor.
  rewrite IH; [reflexivity|]. intros r' Hin. apply Hall. by constructor.
Qed.

(** What [registerModel] does to the router. *)
Lemma registerModel_router (modelConfig : ModelConfig) (s : Server) :
  dynamicApiRouter (registerModel modelConfig s).2
  = match define (name modelConfig) (schema_of (fields modelConfig)) (table_of modelConfig) with
    | Resolved DynamicModel =>
        (dynamicApiRouter s ++ (compiled (crudRoutes modelConfig DynamicModel)).1)%list
    | Rejected _ => dynamicApiRouter s
    end.
Proof.
  rewrite registerModel_eq. destruct (define _ _ _); [|reflexivity].
  cbv zeta. destruct (compiled _).2; reflexivity.
Qed.

Lemma registerModel_database (modelConfig : ModelConfig) (s : Server) :
  (registerModel modelConfig s).1 = Resolved tt →
  ∃ DynamicModel,
    define (name modelConfig) (schema_of (fields modelConfig)) (table_of modelConfig)
    = Resolved DynamicModel
    ∧ compiled (crudRoutes modelConfig DynamicModel)
      = (crudRoutes modelConfig DynamicModel, None)
    ∧ sync DynamicModel (database s)
      = (Resolved tt, database (registerModel modelConfig s).2).
Proof.
  rewrite registerModel_eq. destruct (define _ _ _) as [DynamicModel|e]; [|discriminate].
  intros Hres. exists DynamicModel. split; [reflexivity|]. revert Hres. cbv zeta.
  pose proof (compiled_None (crudRoutes modelConfig DynamicModel)) as Hnone.
  destruct (compiled (crudRoutes modelConfig DynamicModel)) as [added [e|]];
    simpl in *; [discriminate|].
  intros Hsync. split; [by rewrite (Hnone eq_refl)|].
  destruct (sync DynamicModel (database s)) as [o d]. simpl in *. by subst o.
Qed.

Lemma crudRoutes_registered (modelConfig : ModelConfig) (DynamicModel : Model) :
  Forall built_by_registration (crudRoutes modelConfig DynamicModel).
Proof.
  unfold crudRoutes. apply Forall_forall. intros r (k & -> & _)%list_elem_of_fmap.
  by exists modelConfig, DynamicModel, k.
Qed.

Lemma prefix_registered (modelConfig : ModelConfig) (DynamicModel : Model)
    (added : list Route) :
  added `prefix_of` crudRoutes modelConfig DynamicModel →
  Forall built_by_registration added.
Proof.
  intros [rest Heq]. pose proof (crudRoutes_registered modelConfig DynamicModel) as Hall.
  rewrite Heq in Hall. by apply Forall_app in Hall as [Hadded _].
Qed.

Lemma prefix_crudRoutes (modelConfig : ModelConfig) (DynamicModel : Model)
    (added : list Route) (r : Route) :
  added `prefix_of` crudRoutes modelConfig DynamicModel →
  r ∈ added →
  ∃ k, r = crudRoute modelConfig DynamicModel k.
Proof.
  intros [rest Heq] Hin.
  assert (Hr : r ∈ crudRoutes modelConfig DynamicModel)
    by (rewrite Heq; apply elem_of_app; by left).
  unfold crudRoutes in Hr. apply list_elem_of_fmap in Hr as (k & -> & _). by exists k.
Qed.

End RouterProperties.

(** * Properties of the registry *)

Section RegistryProperties.

Context `{TS : TableStore} `{FSt : FileStore} `{Ex : Express} `{Js : JavaScript}.

(** ** How the registry and the router grow *)

Lemma grows_refl (s : Server) : grows s s.
Proof. by apply grows_same. Qed.

(** Only the registry and the router of the later state count. *)
Lemma grows_same_registry (s s1 s' : Server) :
  grows s s1 →
  dynamicModels s' = dynamicModels s1 →
  dynamicApiRouter s' = dynamicApiRouter s1 →
  grows s s'.
Proof.
  intros Hgrows Hmodels Hrouter.
  destruct Hgrows as [s1 Hm Hr|s0 s1 cfg m added Hgrows Hm Hpre Hr].
  - apply grows_same; congruence.
  - apply (grows_register s s0 s' cfg m added Hgrows); [congruence|exact Hpre|congruence].
Qed.

Lemma grows_trans (s1 s2 s3 : Server) : grows s1 s2 → grows s2 s3 → grows s1 s3.
Proof.
  intros H12 H23. induction H23 as [s3 Hm Hr|s s3 cfg m added _ IH Hm Hpre Hr].
  - exact (grows_same_registry s1 s2 s3 H12 Hm Hr).
  - exact (grows_register s1 s s3 cfg m added IH Hm Hpre Hr).
Qed.

Lemma registerModel_grows (modelConfig : ModelConfig) (s : Server) :
  grows s (registerModel modelConfig s).2.
Proof.
  rewrite registerModel_eq. destruct (define _ _ _) as [DynamicModel|e].
  - cbv zeta. pose proof (compiled_prefix (crudRoutes modelConfig DynamicModel)) as Hpre.
    destruct (compiled (crudRoutes modelConfig DynamicModel)) as [added [e|]]; simpl in *;
      by apply (grows_register s s _ modelConfig DynamicModel added (grows_refl s)).
  - apply grows_refl.
Qed.

Lemma on_disk_grows {A} (op : FS → Outcome A * FS) (s : Server) :
  grows s (on_disk op s).2.
Proof. unfold on_disk. destruct (op (disk s)). by apply grows_same. Qed.

Lemma load_each_grows (files : list string) (s : Server) :
  grows s (load_each files s).2.
Proof.
  revert s. induction files as [|file rest IH]; intros s; [apply grows_refl|].
  simpl. unfold mbind, Async_bind, await.
  destruct (endsWith file ".json").
  - pose proof (on_disk_grows (readJson file) s) as Hread.
    destruct (on_disk (readJson file) s) as [[config|e] s1]; [|exact Hread].
    pose proof (registerModel_grows config s1) as Hreg.
    destruct (registerModel config s1) as [[[]|e] s2].
    + exact (grows_trans _ _ _ (grows_trans _ _ _ Hread Hreg) (IH s2)).
    + exact (grows_trans _ _ _ Hread Hreg).
  - apply IH.
Qed.

Lemma loadModelsFromFiles_grows (s : Server) : grows s (loadModelsFromFiles s).2.
Proof.
  unfold loadModelsFromFiles, try_catch, mbind, Async_bind, await.
  pose proof (on_disk_grows ensureDir s) as Hdir.
  destruct (on_disk ensureDir s) as [[[]|e] s1].
  - pose proof (on_disk_grows readdir s1) as Hlist.
    destruct (on_disk readdir s1) as [[files|e] s2].
    + pose proof (load_each_grows files s2) as Hload.
      destruct (load_each files s2) as [[[]|e] s3].
      * exact (grows_trans _ _ _ (grows_trans _ _ _ Hdir Hlist) Hload).
      * apply (grows_same_registry s s3); [|reflexivity..].
        exact (grows_trans _ _ _ (grows_trans _ _ _ Hdir Hlist) Hload).
    + apply (grows_same_registry s s2); [|reflexivity..].
      exact (grows_trans _ _ _ Hdir Hlist).
  - by apply (grows_same_registry s s1).
Qed.

Lemma warn_if_registered_grows (modelName : string) (s : Server) :
  grows s (warn_if_registered modelName s).2.
Proof. unfold warn_if_registered. destruct (get_model s modelName); by apply grows_same. Qed.

Lemma publish_handler_grows (req : Request PublishBody) (s : Server) :
  grows s (publish_handler req s).2.
Proof.
  unfold publish_handler.
  destruct (validate (body req)) as [modelConfig|] eqn:Hvalid.
  - rewrite (publish_try_eq req modelConfig s Hvalid).
    destruct (writeJson _ _ _) as [[[]|e] d]; [|by apply grows_same].
    pose proof (warn_if_registered_grows (name modelConfig) (set_disk s d)) as Hwarn.
    pose proof (registerModel_grows modelConfig
                  (warn_if_registered (name modelConfig) (set_disk s d)).2) as Hreg.
    assert (Hall : grows s (registerModel modelConfig
                              (warn_if_registered (name modelConfig) (set_disk s d)).2).2).
    { refine (grows_trans _ _ _ (grows_trans _ (set_disk s d) _ _ Hwarn) Hreg).
      by apply grows_same. }
    destruct (registerModel _ _) as [[[]|e] s']; [exact Hall|].
    by apply (grows_same_registry s s').
  - unfold publish_try. rewrite Hvalid. apply grows_refl.
Qed.

Lemma publish_grows (req : Request PublishBody) (s : Server) :
  grows s (publish req s).2.
Proof.
  rewrite publish_gate.
  destruct (credential req) as [| |u]; try apply grows_refl.
  destruct (role u); try apply grows_refl. apply publish_handler_grows.
Qed.

Lemma crud_grows (req : Request Payload) (s : Server) : grows s (crud req s).2.
Proof.
  unfold crud. destruct (handle _ _ _); by apply grows_same.
Qed.

Lemma startServer_grows (User : Model) (PORT : string) (s : Server) :
  grows s (startServer User PORT s).2.
Proof.
  unfold startServer, mbind, Async_bind, await, on_database.
  destruct (sync User (database s)) as [[[]|e] d]; [|by apply grows_same].
  assert (Hload : grows s (loadModelsFromFiles (set_database s d)).2).
  { refine (grows_trans _ (set_database s d) _ _ (loadModelsFromFiles_grows _)).
    by apply grows_same. }
  destruct (loadModelsFromFiles (set_database s d)) as [[[]|e] s'];
    by apply (grows_same_registry s s').
Qed.

(** ** What growth preserves *)

Lemma grows_consistent (s s' : Server) : consistent s → grows s s' → consistent s'.
Proof.
  intros Hs Hgrows. induction Hgrows as [s' Hm Hr|s1 s' cfg m added _ IH Hm Hpre Hr].
  - destruct Hs as (Hroutes & Hkeys). unfold consistent, routes_registered, keys_are_names.
    rewrite Hm, Hr. auto.
  - destruct IH as (Hroutes & Hkeys).
    unfold consistent, routes_registered, keys_are_names.
    rewrite Hm, Hr. split.
    + apply Forall_app. split; [exact Hroutes|]. exact (prefix_registered cfg m added Hpre).
    + intros n entry. rewrite lookup_insert. case_decide as Hn.
      * intros [= <-]. simpl. exact Hn.
      * apply Hkeys.
Qed.

Lemma grows_keeps (s s' : Server) :
  grows s s' →
  (∀ modelName, is_Some (dynamicModels s !! modelName) →
                is_Some (dynamicModels s' !! modelName))
  ∧ dynamicApiRouter s `prefix_of` dynamicApiRouter s'.
Proof.
  induction 1 as [s' Hm Hr|s1 s' cfg m added _ [IHm IHr] Hm Hpre Hr]; rewrite Hm, Hr.
  - split; [auto|reflexivity].
  - split.
    + intros n Hn. rewrite lookup_insert. case_decide; [eauto|auto].
    + etrans; [exact IHr|]. by apply prefix_app_r.
Qed.

Lemma empty_consistent (s : Server) :
  dynamicModels s = ∅ → dynamicApiRouter s = [] → consistent s.
Proof.
  intros Hm Hr. unfold consistent, routes_registered, keys_are_names.
  rewrite Hm, Hr. split; [constructor|]. intros ? ?; by rewrite lookup_empty.
Qed.

End RegistryProperties.

(** * The server under traffic *)

Section ServerTheorems.

Context `{TS : TableStore} `{FSt : FileStore} `{Ex : Express} `{Js : JavaScript}.

Lemma registered_route (s : Server) (r : Route) :
  routes_registered s → r ∈ dynamicApiRouter s → built_by_registration r.
Proof. unfold routes_registered. rewrite Forall_forall. auto. Qed.

(** X2. On a server whose routes all come from registrations, a CRUD
    request without a valid token changes nothing, not even the database:
    it is answered 401 or 400 by the first route of its path, or passed on
    when no model has that path. *)
Theorem unauthenticated_crud_changes_nothing (req : Request Payload) (s : Server) :
  routes_registered s →
  (∀ u, credential req ≠ Verified u) →
  (crud req s).2 = s
  ∧ ((crud req s).1 = None
     ∨ ∃ res, (crud req s).1 = Some res ∧ status res ∈ [401; 400]).
Proof.
  intros Hreg Hanon. unfold crud. rewrite (handle_find _ _ _ Hreg).
  destruct (first_match _ _) as [[r params]|] eqn:Hfind.
  - apply first_match_Some in Hfind as (before & after & Hrouter & _ & _).
    assert (Hin : r ∈ dynamicApiRouter s)
      by (rewrite Hrouter; apply elem_of_app; right; constructor).
    destruct (registered_route s r Hreg Hin) as (cfg & m & k & ->).
    rewrite crudRoute_run. simpl.
    destruct (credential req) as [| |u]; [..|by destruct (Hanon u)];
      rewrite set_database_id; (split; [reflexivity|]); right;
      eexists; (split; [reflexivity|]); simpl; set_solver.
  - rewrite set_database_id. auto.
Qed.

(** X3. On such a server, a CRUD request that changes the database was
    made with a valid token and was served by the first route of the
    router that matches it; that route was built from a definition whose
    matrix allows the route's action to the caller's role, and what the
    router did with the request is what the handler of that route did. *)
Theorem database_change_is_authorized (req : Request Payload) (s : Server) :
  routes_registered s →
  database (crud req s).2 ≠ database s →
  ∃ before after modelConfig DynamicModel k params u,
    dynamicApiRouter s = (before ++ crudRoute modelConfig DynamicModel k :: after)%list
    ∧ Forall (λ r, route_match r req = None) before
    ∧ route_match (crudRoute modelConfig DynamicModel k) req = Some params
    ∧ credential req = Verified u
    ∧ isAllowed (rbac modelConfig) (role u) (action_of k) = true
    ∧ handle (dynamicApiRouter s) req (database s)
      = handler_of k DynamicModel (set_user (set_params_id req params) u) (database s).
Proof.
  intros Hreg. unfold crud. rewrite (handle_find _ _ _ Hreg).
  destruct (first_match _ _) as [[r params]|] eqn:Hfind; [|by intros []].
  apply first_match_Some in Hfind as (before & after & Hrouter & Hnone & Hmatch).
  assert (Hin : r ∈ dynamicApiRouter s)
    by (rewrite Hrouter; apply elem_of_app; right; constructor).
  destruct (registered_route s r Hreg Hin) as (cfg & m & k & ->).
  rewrite crudRoute_run. simpl.
  destruct (credential req) as [| |u] eqn:Hcred; [by intros []..|].
  destruct (isAllowed _ _ _) eqn:Hallowed; [|by intros []].
  intros _. by exists before, after, cfg, m, k, params, u.
Qed.

(** X4. Once the five routes of a model are in the router, registering a
    definition under the same name, or under a name that differs only in
    letter case, changes what the router does with no request, on any
    database: the routes added last are never reached.  A CRUD request
    after the registration is answered as the server before it would
    answer on the database the registration left, and as the server
    before it answered if the registration left the database as it was. *)
Theorem reregistration_is_invisible (modelConfig registered : ModelConfig)
    (DynamicModel : Model) (s : Server) (req : Request Payload) :
  routes_registered s →
  (∀ k, crudRoute registered DynamicModel k ∈ dynamicApiRouter s) →
  toLowerCase (name registered) = toLowerCase (name modelConfig) →
  let s' := (registerModel modelConfig s).2 in
  (∀ db, handle (dynamicApiRouter s') req db = handle (dynamicApiRouter s) req db)
  ∧ (crud req s').1 = (crud req (set_database s (database s'))).1
  ∧ (database s' = database s → (crud req s').1 = (crud req s).1).
Proof.
  intros Hroutes Hrouted Hsame s'.
  assert (Hrouter : ∀ db, handle (dynamicApiRouter s') req db
                          = handle (dynamicApiRouter s) req db).
  { intros db. unfold s'. rewrite registerModel_router.
    destruct (define _ _ _) as [newModel|e]; [|reflexivity].
    pose proof (compiled_prefix (crudRoutes modelConfig newModel)) as Hpre.
    rewrite handle_find
      by (apply Forall_app; split; [exact Hroutes|exact (prefix_registered _ _ _ Hpre)]).
    rewrite (handle_find _ _ _ Hroutes), first_match_app.
    destruct (first_match (dynamicApiRouter s) req) as [found|] eqn:Hfind; [reflexivity|].
    replace (first_match (compiled (crudRoutes modelConfig newModel)).1 req) with
      (@None (Route * option string)); [reflexivity|].
    symmetry. apply first_match_None, Forall_forall. intros r Hin.
    destruct (prefix_crudRoutes _ _ _ r Hpre Hin) as [k ->].
    rewrite <- (route_match_same_base registered modelConfig DynamicModel newModel k req Hsame).
    apply first_match_None in Hfind. rewrite Forall_forall in Hfind.
    exact (Hfind _ (Hrouted k)). }
  split; [exact Hrouter|].
  assert (Hcrud : (crud req s').1 = (crud req (set_database s (database s'))).1).
  { unfold crud. simpl. rewrite Hrouter. destruct (handle _ _ _); reflexivity. }
  split; [exact Hcrud|].
  intros Hdb. rewrite Hcrud, Hdb, set_database_id. reflexivity.
Qed.

(** X6. When the model is defined and Express compiles the paths of its
    routes, the routes serve requests as soon as they are added, whether
    or not the sync with the database then succeeds: a request that no
    route added before matches is answered by the first of the new
    routes that matches it. *)
Theorem first_registration_is_live (modelConfig : ModelConfig) (DynamicModel : Model)
    (k : HandlerKind) (s : Server) (req : Request Payload) (params : option string)
    (before after : list Route) :
  define (name modelConfig) (schema_of (fields modelConfig)) (table_of modelConfig)
  = Resolved DynamicModel →
  (∀ r, r ∈ crudRoutes modelConfig DynamicModel → compile_path (route_path r) = None) →
  Forall (λ r, route_match r req = None) (dynamicApiRouter s) →
  crudRoutes modelConfig DynamicModel
  = (before ++ crudRoute modelConfig DynamicModel k :: after)%list →
  Forall (λ r, route_match r req = None) before →
  route_match (crudRoute modelConfig DynamicModel k) req = Some params →
  ∀ db,
    handle (dynamicApiRouter (registerModel modelConfig s).2) req db
    = run_stack (stack (crudRoute modelConfig DynamicModel k)) (set_params_id req params) db.
Proof.
  intros Hdefine Hcompiles Hnone Hsplit Hbefore Hmatch db.
  rewrite registerModel_router, Hdefine, (compiled_all _ Hcompiles). simpl.
  rewrite handle_app, (handle_no_match _ _ _ Hnone), Hsplit.
  rewrite handle_app, (handle_no_match _ _ _ Hbefore).
  cbn [handle]. rewrite Hmatch.
  destruct (crudRoute_sends modelConfig DynamicModel k (set_params_id req params) db)
    as (res & db' & -> & _).
  reflexivity.
Qed.

(** X7. The registry and the router stay consistent: if every route
    comes from a registration and every entry is stored under the name
    of its definition, then the same holds after a registration, a
    publish request, the boot loader, the server start and a CRUD
    request, whatever their outcome. *)
Theorem consistent_preserved (s : Server) :
  consistent s →
  (∀ modelConfig, consistent (registerModel modelConfig s).2)
  ∧ (∀ req, consistent (publish req s).2)
  ∧ consistent (loadModelsFromFiles s).2
  ∧ (∀ User PORT, consistent (startServer User PORT s).2)
  ∧ (∀ req, consistent (crud req s).2).
Proof.
  intros Hs. repeat split; intros;
    apply (grows_consistent s _ Hs);
    auto using registerModel_grows, publish_grows, loadModelsFromFiles_grows,
      startServer_grows, crud_grows.
Qed.

(** X8. Nothing is ever unregistered: a name in the registry is still in
    it after a publish request, a registration and the boot loader, and
    the routes in place stay, in their order, in front of any new one. *)
Theorem registry_never_shrinks (s : Server) (req : Request PublishBody)
    (modelConfig : ModelConfig) (modelName : string) :
  is_Some (dynamicModels s !! modelName) →
  (is_Some (dynamicModels (publish req s).2 !! modelName)
   ∧ dynamicApiRouter s `prefix_of` dynamicApiRouter (publish req s).2)
  ∧ (is_Some (dynamicModels (registerModel modelConfig s).2 !! modelName)
     ∧ dynamicApiRouter s `prefix_of` dynamicApiRouter (registerModel modelConfig s).2)
  ∧ (is_Some (dynamicModels (loadModelsFromFiles s).2 !! modelName)
     ∧ dynamicApiRouter s `prefix_of` dynamicApiRouter (loadModelsFromFiles s).2).
Proof.
  intros Hin.
  destruct (grows_keeps s _ (publish_grows req s)) as [Hp1 Hp2].
  destruct (grows_keeps s _ (registerModel_grows modelConfig s)) as [Hr1 Hr2].
  destruct (grows_keeps s _ (loadModelsFromFiles_grows s)) as [Hl1 Hl2].
  auto 10.
Qed.

(** X28. The dynamic router is mounted before the schema route, so a
    request the router answers never reaches the schema route: a model
    whose routes match [GET /api/models/<name>], such as a model named
    [Models], answers the lookup itself. *)
Theorem schema_lookup_behind_router (req : Request Payload) (s : Server) (res : Response) :
  (crud req s).1 = Some res → model_schema req s = crud req s.
Proof.
  unfold model_schema, crud. destruct (handle _ _ _); [discriminate|reflexivity..].
Qed.

(** X9. On a consistent server, a GET with a valid token that the
    schema route matches with [<name>] as its parameter, when no route
    of the dynamic router matches it, is answered by the schema route
    and changes nothing.  For a name stored
    in the registry the answer is 200 with the stored definition, whose
    name is the name asked for.  For a name the registry object only
    inherits, such as [constructor], the answer is 200 with no body.
    For every other name the answer is 404. *)
Theorem model_schema_answers (s : Server) (req : Request Payload) (u : User)
    (modelName : string) :
  consistent s →
  Forall (λ r, route_match r req = None) (dynamicApiRouter s) →
  method req = GET →
  match_path "/models/:modelName" (target req) (params_id req) = Some (Some modelName) →
  credential req = Verified u →
  model_schema req s
  = (Some match get_model s modelName with
          | Own entry => {| status := 200; payload := JsonConfig (config entry) |}
          | Inherited => {| status := 200; payload := Empty |}
          | Undefined => {| status := 404; payload := Text "Model schema not found." |}
          end, s)
  ∧ (∀ entry, dynamicModels s !! modelName = Some entry →
              get_model s modelName = Own entry ∧ name (config entry) = modelName)
  ∧ (dynamicModels s !! modelName = None →
     modelName ∈ Object_prototype → get_model s modelName = Inherited)
  ∧ (dynamicModels s !! modelName = None →
     modelName ∉ Object_prototype →
     dynamicModels s !! "__proto__" = None →
     get_model s modelName = Undefined).
Proof.
  intros (_ & Hkeys) Hnone Hget Hmatch Hcred.
  split; [|split; [|split]].
  - unfold model_schema. rewrite (handle_no_match _ _ _ Hnone), Hget, Hmatch.
    unfold authMiddleware. rewrite Hcred, set_database_id.
    unfold model_schema_handler. reflexivity.
  - intros entry Hentry. unfold get_model. rewrite Hentry.
    split; [reflexivity|exact (Hkeys modelName entry Hentry)].
  - intros Hentry Hin. unfold get_model. rewrite Hentry.
    apply includes_elem_of in Hin. rewrite Hin. reflexivity.
  - intros Hentry Hnotin Hproto. unfold get_model. rewrite Hentry, Hproto.
    destruct (includes Object_prototype modelName) eqn:Hincl; [|reflexivity].
    apply includes_elem_of in Hincl. contradiction.
Qed.

End ServerTheorems.

(** * Publishing, booting and the schema of a model *)

Section PublishTheorems.

Context `{TS : TableStore} `{FSt : FileStore} `{Ex : Express} `{Js : JavaScript}.

Lemma registerModel_resolved (modelConfig : ModelConfig) (s s' : Server) :
  registerModel modelConfig s = (Resolved tt, s') →
  (config <$> dynamicModels s' !! name modelConfig) = Some modelConfig
  ∧ disk s' = disk s.
Proof.
  intros Hreg.
  pose proof (registerModel_disk modelConfig s) as Hdisk.
  pose proof (registerModel_models modelConfig s) as Hmodels.
  rewrite Hreg in Hdisk, Hmodels. simpl in Hdisk, Hmodels. split; [|exact Hdisk].
  rewrite registerModel_eq in Hreg.
  destruct (define _ _ _) as [DynamicModel|e]; [|discriminate].
  rewrite Hmodels, lookup_insert_eq. reflexivity.
Qed.

(** X10. A publish request is answered 201 only if the caller is an
    Admin, the body passed the check, the definition file was written
    and the registration that followed succeeded, leaving the server in
    the state the request ends in; the registry then holds the submitted
    definition under its name, and the configuration directory is as the
    write left it. *)
Theorem publish_created_sound (req : Request PublishBody) (s : Server) :
  status (publish req s).1 = 201 →
  ∃ u modelConfig,
    credential req = Verified u
    ∧ role u = Admin
    ∧ validate (body req) = Some modelConfig
    ∧ (writeJson (name modelConfig +:+ ".json") modelConfig (disk s)).1 = Resolved tt
    ∧ registerModel modelConfig
        (warn_if_registered (name modelConfig)
           (set_disk s (writeJson (name modelConfig +:+ ".json") modelConfig (disk s)).2)).2
      = (Resolved tt, (publish req s).2)
    ∧ disk (publish req s).2
      = (writeJson (name modelConfig +:+ ".json") modelConfig (disk s)).2
    ∧ (config <$> dynamicModels (publish req s).2 !! name modelConfig) = Some modelConfig.
Proof.
  rewrite publish_gate.
  destruct (credential req) as [| |u] eqn:Hcred; [discriminate..|].
  destruct (role u) eqn:Hrole; [|discriminate..].
  unfold publish_handler.
  destruct (validate (body (set_user req u))) as [modelConfig|] eqn:Hvalid.
  - rewrite (publish_try_eq _ modelConfig s Hvalid).
    destruct (writeJson _ _ _) as [[[]|e] d] eqn:Hwrite; [|discriminate].
    destruct (registerModel _ _) as [[[]|e] s'] eqn:Hreg; [|discriminate].
    intros _. exists u, modelConfig.
    destruct (registerModel_resolved modelConfig _ s' Hreg) as [Hentry Hdisk].
    rewrite warn_if_registered_disk in Hdisk. rewrite Hwrite. simpl in *.
    repeat split; (assumption || reflexivity).
  - unfold publish_try. rewrite Hvalid. discriminate.
Qed.

(** X11. When the definition file cannot be written, the publish
    request registers nothing: the registry, the routes and the database
    are untouched, and the answer is the 500 of the write error. *)
Theorem failed_write_registers_nothing (req : Request PublishBody) (u : User)
    (modelConfig : ModelConfig) (s : Server) (e : Error) (d : FS) :
  credential req = Verified u →
  role u = Admin →
  validate (body req) = Some modelConfig →
  writeJson (name modelConfig +:+ ".json") modelConfig (disk s) = (Rejected e, d) →
  (publish req s).1 = {| status := 500; payload := Text (message e) |}
  ∧ dynamicModels (publish req s).2 = dynamicModels s
  ∧ dynamicApiRouter (publish req s).2 = dynamicApiRouter s
  ∧ database (publish req s).2 = database s
  ∧ disk (publish req s).2 = d.
Proof.
  intros Hcred Hadmin Hvalid Hwrite.
  rewrite publish_gate, Hcred, Hadmin. unfold publish_handler.
  rewrite (publish_try_eq _ modelConfig s) by exact Hvalid.
  rewrite Hwrite. auto.
Qed.

(** ** Boot *)

Lemma loadModelsFromFiles_resolves (s : Server) :
  (loadModelsFromFiles s).1 = Resolved tt.
Proof.
  unfold loadModelsFromFiles, try_catch.
  match goal with
  | |- (match ?m with _ => _ end).1 = _ => destruct m as [[[]|e] s']
  end; reflexivity.
Qed.

(** X12. The server listens exactly when the sync of the static User
    model succeeds: no failure while the definitions are loaded keeps it
    from starting. *)
Theorem startServer_listens (User : Model) (PORT : string) (s : Server) :
  (startServer User PORT s).1 = true ↔ (sync User (database s)).1 = Resolved tt.
Proof.
  unfold startServer, mbind, Async_bind, await, on_database.
  destruct (sync User (database s)) as [[[]|e] d]; simpl.
  - pose proof (loadModelsFromFiles_resolves (set_database s d)) as Hload.
    destruct (loadModelsFromFiles (set_database s d)) as [[[]|e] s']; [done|discriminate].
  - split; discriminate.
Qed.

(** X13. The boot loader reads only the files whose name ends in
    [.json]: the other entries of the directory are as if absent. *)
Theorem load_each_skips_other_files (files : list string) (s : Server) :
  load_each files s = load_each (List.filter (λ file, endsWith file ".json") files) s.
Proof.
  revert s. induction files as [|file rest IH]; intros s; [reflexivity|].
  cbn [load_each List.filter]. destruct (endsWith file ".json") eqn:Hjson.
  - cbn [load_each]. rewrite Hjson. unfold mbind, Async_bind, await.
    destruct (on_disk (readJson file) s) as [[config|e] s1]; [|reflexivity].
    destruct (registerModel config s1) as [[[]|e] s2]; [apply IH|reflexivity].
  - unfold mbind, Async_bind, await. simpl. apply IH.
Qed.

(** X14. When reading a file leaves the directory as it is and the loop
    of the boot loader completes, every [.json] file of the list held a
    definition, and the name of that definition is registered. *)
Theorem load_each_registers_all (files : list string) (s s' : Server) :
  (∀ file d, (readJson file d).2 = d) →
  load_each files s = (Resolved tt, s') →
  ∀ file, file ∈ files → endsWith file ".json" = true →
    ∃ modelConfig,
      (readJson file (disk s)).1 = Resolved modelConfig
      ∧ is_Some (dynamicModels s' !! name modelConfig).
Proof.
  intros Hread. revert s. induction files as [|file0 rest IH]; intros s Hload file Hin Hjson.
  - by apply elem_of_nil in Hin.
  - cbn [load_each] in Hload. unfold mbind, Async_bind, await in Hload.
    destruct (endsWith file0 ".json") eqn:Hjson0.
    + unfold on_disk in Hload.
      pose proof (Hread file0 (disk s)) as Hsame.
      destruct (readJson file0 (disk s)) as [[config|e] d] eqn:Hfile; [|discriminate].
      simpl in Hsame. subst d.
      destruct (registerModel config (set_disk s (disk s))) as [[[]|e] s2] eqn:Hreg;
        [|discriminate].
      destruct (registerModel_resolved config _ s2 Hreg) as [Hstored Hdisk].
      assert (Hentry : is_Some (dynamicModels s2 !! name config))
        by (destruct (dynamicModels s2 !! name config); [eauto|discriminate]).
      simpl in Hdisk.
      apply elem_of_cons in Hin as [->|Hin].
      * exists config. rewrite Hfile. split; [reflexivity|].
        pose proof (load_each_grows rest s2) as Hgrows. rewrite Hload in Hgrows.
        exact (proj1 (grows_keeps s2 s' Hgrows) _ Hentry).
      * rewrite <- Hdisk. exact (IH s2 Hload file Hin Hjson).
    + apply elem_of_cons in Hin as [->|Hin]; [congruence|].
      simpl in Hload. exact (IH s Hload file Hin Hjson).
Qed.

(** ** The schema of a model *)



(** ** The permission matrix *)

Lemma role_name_inj (r r' : Role) : role_name r = role_name r' → r = r'.
Proof. destruct r, r'; simpl; congruence. Qed.

(** X16. Roles are checked apart: the action list of one role has no
    effect on what another role may do.  And what a role may do only
    grows with its list: an action allowed under a list is allowed under
    every list that contains it. *)
Theorem isAllowed_insert (matrix : gmap string (list string)) (r r' : Role)
    (permissions more : list string) (action : string) :
  (r ≠ r' →
   isAllowed (<[role_name r' := permissions]> matrix) r action = isAllowed matrix r action)
  ∧ (permissions ⊆ more →
     isAllowed (<[role_name r := permissions]> matrix) r action = true →
     isAllowed (<[role_name r := more]> matrix) r action = true).
Proof.
  unfold isAllowed. split.
  - intros Hne. rewrite lookup_insert_ne; [reflexivity|].
    intros Heq. apply Hne. symmetry. by apply role_name_inj.
  - intros Hsub. rewrite !lookup_insert_eq, !orb_true_iff, !includes_elem_of.
    intros [?|?]; [left|right]; by apply Hsub.
Qed.

(** ** Rows that do not exist *)

(** X17. For a caller allowed the action, the routes that take an id
    answer 404 when the Table Store finds no row with that id; nothing
    is updated or destroyed, the database is as the lookup left it. *)
Theorem missing_row_is_404 (modelConfig : ModelConfig) (DynamicModel : Model)
    (k : HandlerKind) (req : Request Payload) (u : User) (db db' : DB) :
  k ∈ [GetById; Update; Delete] →
  credential req = Verified u →
  isAllowed (rbac modelConfig) (role u) (action_of k) = true →
  findByPk DynamicModel (params_id req) db = (Resolved None, db') →
  run_stack (stack (crudRoute modelConfig DynamicModel k)) req db = Send notFound db'.
Proof.
  intros Hk Hcred Hallowed Hfind. rewrite crudRoute_run, Hcred, Hallowed.
  repeat (apply elem_of_cons in Hk as [->|Hk]); [..|by apply elem_of_nil in Hk];
    simpl; unfold getHandler, updateHandler, deleteHandler; simpl;
    rewrite Hfind; reflexivity.
Qed.

End PublishTheorems.

(** * Authentication *)

Section AuthTheorems.

Context `{Id : Identity}.

Lemma parse_role_Some (s : string) (r : Role) : parse_role s = Some r ↔ s = role_name r.
Proof.
  unfold parse_role. split.
  - destruct (String.eqb_spec s "Admin") as [->|_]; [by intros [= <-]|].
    destruct (String.eqb_spec s "Manager") as [->|_]; [by intros [= <-]|].
    destruct (String.eqb_spec s "Viewer") as [->|_]; [by intros [= <-]|].
    discriminate.
  - intros ->. by destruct r.
Qed.

Lemma parse_role_None (s : string) : parse_role s = None ↔ ∀ r, s ≠ role_name r.
Proof.
  split.
  - intros Hnone r ->. by destruct r.
  - intros Hnot. destruct (parse_role s) as [r|] eqn:Hr; [|reflexivity].
    apply parse_role_Some in Hr. by destruct (Hnot r).
Qed.

(** X18. Signup with a role other than Admin, Manager or Viewer is
    answered 400 "Invalid role." and [User.create] is not called: the
    user table is untouched. *)
Theorem signup_rejects_unknown_role (b : SignupBody) (st : AuthState) :
  (∀ r, signup_role b ≠ role_name r) →
  (signup b st).1 = {| auth_status := 400; auth_body := AuthText "Invalid role." |}
  ∧ users (signup b st).2 = users st.
Proof.
  intros Hrole%parse_role_None. unfold signup. rewrite Hrole. split; reflexivity.
Qed.

(** X19. Signup is answered 201 only if the role sent is one of the
    three and [User.create] succeeded for that username, password and
    role; the answer carries the id, the username and the role of the
    row created, and never the password. *)
Theorem signup_created_sound (b : SignupBody) (st : AuthState) :
  auth_status (signup b st).1 = 201 →
  ∃ r user,
    signup_role b = role_name r
    ∧ (User_create (signup_username b) (signup_password b) r (users st)).1 = Resolved user
    ∧ users (signup b st).2
      = (User_create (signup_username b) (signup_password b) r (users st)).2
    ∧ auth_body (signup b st).1 = AuthUser (row_id user) (row_username user) (row_role user).
Proof.
  unfold signup, auth_log, with_users. simpl.
  destruct (parse_role (signup_role b)) as [r|] eqn:Hrole; [|discriminate].
  apply parse_role_Some in Hrole.
  destruct (User_create _ _ _ _) as [[user|e] u] eqn:Hcreate; [|discriminate].
  simpl in Hcreate. intros _. exists r, user. rewrite Hcreate. repeat split; done.
Qed.

(** X20. Login answers the same 400 "Invalid username or password."
    whether no user has the username or the password does not match, so
    the answer does not tell which usernames exist. *)
Theorem login_failures_look_alike (b : LoginBody) (st : AuthState) :
  (User_findOne (login_username b) (users st)).1 = Resolved None
  ∨ (∃ user,
       (User_findOne (login_username b) (users st)).1 = Resolved (Some user)
       ∧ bcrypt_compare (login_password b) (row_password user) = Resolved false) →
  (login b st).1 = invalid_login.
Proof.
  unfold login, isValidPassword, auth_log, with_users. simpl.
  destruct (User_findOne _ _) as [[[user|]|e] u]; simpl.
  - intros [[=]|(user' & [= <-] & ->)]. reflexivity.
  - reflexivity.
  - intros [[=]|(user' & [=] & _)].
Qed.

(** X21. Login hands out a token only after the user was found and
    bcrypt matched the password against the stored hash; the token signs
    the id, the username and the role of that row, and the status is
    200. *)
Theorem login_token_sound (b : LoginBody) (st : AuthState) (token : Token) :
  auth_body (login b st).1 = AuthToken token →
  ∃ user,
    (User_findOne (login_username b) (users st)).1 = Resolved (Some user)
    ∧ bcrypt_compare (login_password b) (row_password user) = Resolved true
    ∧ jwt_sign {| user_id := row_id user; username := row_username user;
                  role := row_role user |} = Resolved token
    ∧ auth_status (login b st).1 = 200.
Proof.
  unfold login, isValidPassword, login_error, auth_log, with_users. simpl.
  destruct (User_findOne _ _) as [[[user|]|e] u]; simpl; [|discriminate..].
  destruct (bcrypt_compare _ _) as [[]|e] eqn:Hcompare; simpl; [|discriminate..].
  destruct (jwt_sign _) as [t|e] eqn:Hsign; simpl; [|discriminate].
  intros [= ->]. exists user. repeat split; done.
Qed.

End AuthTheorems.

Section PgAuthTheorems.

Context `{P : Pool}.

(** X22. The e-mail signup answers 201 only if no row had the e-mail
    address, and the row it inserts holds the bcrypt hash of the
    password, not the password.  For an address some row already has,
    the answer is 400 "User already exists" and the signup ends in the
    state the lookup left: nothing is hashed or inserted. *)
Theorem pg_signup_created_sound (b : PgSignupBody) (pg : PG) :
  (pg_status (pg_signup b pg).1 = 201 →
   ∃ pg1 hashed pg2,
     select_by_email (pg_body_email b) pg = (Resolved [], pg1)
     ∧ pg_hash (pg_body_password b) pg1 = (Resolved hashed, pg2)
     ∧ insert_user (pg_body_name b) (pg_body_email b) hashed pg2
       = (Resolved tt, (pg_signup b pg).2))
  ∧ (∀ user rows pg1,
       select_by_email (pg_body_email b) pg = (Resolved (user :: rows), pg1) →
       pg_signup b pg
       = ({| pg_status := 400; pg_body := PgMessage "User already exists" |}, pg1)).
Proof.
  unfold pg_signup. split.
  - destruct (select_by_email _ _) as [[[|user rows]|e] pg1]; [|discriminate..].
    destruct (pg_hash _ _) as [[hashed|e] pg2] eqn:Hhash; [|discriminate].
    destruct (insert_user _ _ _ _) as [[[]|e] pg3] eqn:Hinsert; [|discriminate].
    intros _. exists pg1, hashed, pg2. repeat split; done.
  - intros user rows pg1 ->. reflexivity.
Qed.

(** X23. The e-mail login hands out a token only when a row has the
    address and bcrypt matches the password against the first such row;
    the token signs the id and the address of that row.  An unknown
    address and a wrong password get the same 400. *)
Theorem pg_login_sound (b : PgLoginBody) (pg : PG) :
  (∀ token, pg_body (pg_login b pg).1 = PgTokenBody token →
     ∃ user rows,
       (select_by_email (pg_login_email b) pg).1 = Resolved (user :: rows)
       ∧ pg_compare (pg_login_password b) (pg_password user) = Resolved true
       ∧ pg_sign (pg_id user) (pg_email user) = Resolved token)
  ∧ ((select_by_email (pg_login_email b) pg).1 = Resolved []
     ∨ (∃ user rows,
          (select_by_email (pg_login_email b) pg).1 = Resolved (user :: rows)
          ∧ pg_compare (pg_login_password b) (pg_password user) = Resolved false) →
     (pg_login b pg).1 = pg_invalid).
Proof.
  unfold pg_login. split.
  - intros token.
    destruct (select_by_email _ _) as [[[|user rows]|e] pg1]; simpl; [discriminate| |discriminate].
    destruct (pg_compare _ _) as [[]|e] eqn:Hcompare; simpl; [|discriminate..].
    destruct (pg_sign _ _) as [t|e] eqn:Hsign; simpl; [|discriminate].
    intros [= ->]. exists user, rows. repeat split; done.
  - destruct (select_by_email _ _) as [[[|user rows]|e] pg1]; simpl.
    + reflexivity.
    + intros [[=]|(user' & rows' & [= <- _] & ->)]. reflexivity.
    + intros [[=]|(user' & rows' & [=] & _)].
Qed.

End PgAuthTheorems.

(** * The client against the server *)

Section ClientTheorems.

Context `{TS : TableStore} `{Js : JavaScript}.

Lemma handler_never_403 (k : HandlerKind) (DynamicModel : Model)
    (req : Request Payload) (db : DB) (res : Response) (db' : DB) :
  handler_of k DynamicModel req db = Send res db' → status res ≠ 403.
Proof.
  destruct k; simpl;
    unfold createHandler, listHandler, getHandler, updateHandler, deleteHandler;
    repeat match goal with
           | |- context [match ?x with _ => _ end] => destruct x
           end;
    intros [= <- _]; discriminate.
Qed.

(** X24. The data page and the server agree: under the schema a route
    was built from, the page hides the button of an action from a user
    exactly when the route of that action answers that user's request
    with its 403. *)
Theorem can_agrees_with_server (modelConfig : ModelConfig) (DynamicModel : Model)
    (k : HandlerKind) (u : User) (req : Request Payload) (db : DB) :
  credential req = Verified u →
  can (Some modelConfig) (Some u) (action_of k) = false
  ↔ run_stack (stack (crudRoute modelConfig DynamicModel k)) req db
    = Send (forbidden (role u) (action_of k) (name modelConfig)) db.
Proof.
  intros Hcred. rewrite crudRoute_run, Hcred.
  change (can (Some modelConfig) (Some u) (action_of k))
    with (isAllowed (rbac modelConfig) (role u) (action_of k)).
  destruct (isAllowed _ _ _); split; try done.
  intros Hsend. apply handler_never_403 in Hsend. by destruct Hsend.
Qed.

End ClientTheorems.

Section BuilderTheorems.

Lemma filter_ne_elem_of (x : string) (l : list string) (y : string) :
  y ∈ filter (λ z, z ≠ x) l ↔ y ≠ x ∧ y ∈ l.
Proof. exact (list_elem_of_filter (λ z, z ≠ x) l y). Qed.

Lemma newSet_elem_of (arr : list string) (x : string) : x ∈ newSet arr ↔ x ∈ arr.
Proof.
  induction arr as [|y rest IH]; [reflexivity|].
  simpl. rewrite !elem_of_cons, filter_ne_elem_of, IH.
  destruct (decide (x = y)); tauto.
Qed.

Lemma newSet_NoDup (arr : list string) : NoDup (newSet arr).
Proof.
  induction arr as [|y rest IH]; [constructor|].
  simpl. constructor.
  - rewrite filter_ne_elem_of. tauto.
  - by apply NoDup_filter.
Qed.

Lemma set_add_elem_of (s : list string) (x y : string) :
  y ∈ set_add s x ↔ y = x ∨ y ∈ s.
Proof.
  unfold set_add. destruct (includes s x) eqn:Hin.
  - apply includes_elem_of in Hin. intuition congruence.
  - rewrite elem_of_app, list_elem_of_singleton. tauto.
Qed.

Lemma set_add_NoDup (s : list string) (x : string) : NoDup s → NoDup (set_add s x).
Proof.
  intros Hs. unfold set_add. destruct (includes s x) eqn:Hin; [exact Hs|].
  apply NoDup_app. split; [exact Hs|]. split; [|apply NoDup_singleton].
  intros y Hy ->%list_elem_of_singleton.
  apply includes_elem_of in Hy. congruence.
Qed.

(** X25. Ticking or clearing a box of the permission grid leaves the
    other roles as they were and gives the role a list without
    repetition: the actions it had, with the ticked action added or the
    cleared action removed. *)
Theorem handleRbacChange_spec (role action : string) (isChecked : bool)
    (rbac : gmap string (list string)) :
  let old := match rbac !! role with Some arr => arr | None => [] end in
  (∀ other, other ≠ role →
            handleRbacChange role action isChecked rbac !! other = rbac !! other)
  ∧ ∃ permissions,
      handleRbacChange role action isChecked rbac !! role = Some permissions
      ∧ NoDup permissions
      ∧ ∀ x, x ∈ permissions
             ↔ if isChecked then x = action ∨ x ∈ old else x ≠ action ∧ x ∈ old.
Proof.
  intros old. unfold handleRbacChange. fold old. split.
  - intros other Hother. by rewrite lookup_insert_ne.
  - eexists. rewrite lookup_insert_eq. split; [reflexivity|].
    destruct isChecked.
    + split; [apply set_add_NoDup, newSet_NoDup|].
      intros x. rewrite set_add_elem_of, newSet_elem_of. reflexivity.
    + split; [apply NoDup_filter, newSet_NoDup|].
      intros x. unfold set_delete. rewrite filter_ne_elem_of, newSet_elem_of. reflexivity.
Qed.

(** X26. What a box of the grid does to the server's check.  A ticked
    action is allowed.  A cleared action is refused when the role's list
    has no "all", but stays allowed when the list has "all": clearing the
    box of one action does not take it away from a role that has "all". *)
Theorem handleRbacChange_effect (r : Role) (action : string)
    (rbac : gmap string (list string)) :
  let old := match rbac !! role_name r with Some arr => arr | None => [] end in
  isAllowed (handleRbacChange (role_name r) action true rbac) r action = true
  ∧ ("all" ∉ old →
     isAllowed (handleRbacChange (role_name r) action false rbac) r action = false)
  ∧ ("all" ∈ old → action ≠ "all" →
     isAllowed (handleRbacChange (role_name r) action false rbac) r action = true).
Proof.
  intros old. unfold isAllowed, handleRbacChange. fold old.
  rewrite !lookup_insert_eq. split; [|split].
  - apply orb_true_iff. left. apply includes_elem_of, set_add_elem_of. by left.
  - intros Hall. apply orb_false_iff. split; apply not_true_iff_false;
      rewrite includes_elem_of; unfold set_delete;
      rewrite filter_ne_elem_of, newSet_elem_of; tauto.
  - intros Hall Hne. apply orb_true_iff. right.
    apply includes_elem_of. unfold set_delete.
    rewrite filter_ne_elem_of, newSet_elem_of. split; [congruence|exact Hall].
Qed.

(** X27. What the model builder posts passes the check of the publish
    endpoint exactly when the model name is not empty.  The definition
    then registered has that name and that permission grid, and its
    fields are the rows of the form with a name, in their order; rows
    without a name are dropped, so the field list may be empty. *)
Theorem builder_body_checked (modelName : string) (fields0 : list Field)
    (grid : gmap string (list string)) :
  (validate (builder_body modelName fields0 grid) = None ↔ modelName = "")
  ∧ ∀ modelConfig,
      validate (builder_body modelName fields0 grid) = Some modelConfig →
      name modelConfig = modelName
      ∧ rbac modelConfig = grid
      ∧ fields modelConfig = filter (λ f, field_name f ≠ "") fields0
      ∧ Forall (λ f, field_name f ≠ "") (fields modelConfig).
Proof.
  unfold validate, builder_body. simpl.
  destruct (String.eqb_spec modelName "") as [->|Hne].
  - split; [done|discriminate].
  - split; [split; [discriminate|done]|].
    intros modelConfig [= <-]. simpl. repeat split.
    apply Forall_forall. intros f Hf. by apply list_elem_of_filter in Hf as [? _].
Qed.

End BuilderTheorems.

(** * More scenarios on the in-memory collaborators *)

Section MoreScenarios.

#[local] Existing Instance Mem.table_store.
#[local] Existing Instance Mem.file_store.
#[local] Existing Instance Mem.express.
#[local] Existing Instance Mem.javascript.
#[local] Existing Instance MemAuth.identity.
#[local] Existing Instance MemAuth.pool.

Import Mem MemAuth.

Lemma boot_consistent : consistent (boot empty_db empty_fs).
Proof. by apply empty_consistent. Qed.

Lemma published_once_consistent : consistent published_once.
Proof.
  apply (grows_consistent (boot empty_db empty_fs)); [apply boot_consistent|].
  apply publish_grows.
Qed.

Lemma published_once_entry :
  dynamicModels published_once !! "Product"
  = Some {| model := products_model; config := product |}.
Proof. vm_compute. reflexivity. Qed.

(** Express compiles the paths of the five routes of [product]. *)
Lemma product_routes_compile (modelConfig : ModelConfig) (r : Route) :
  name modelConfig = "Product" →
  r ∈ crudRoutes modelConfig products_model → compile_path (route_path r) = None.
Proof.
  intros Hname Hin. unfold crudRoutes in Hin.
  apply list_elem_of_fmap in Hin as (k & -> & _).
  unfold route_path. destruct k; simpl; rewrite Hname; vm_compute; reflexivity.
Qed.

(** The router once [product] is registered on a fresh boot, whatever
    the database does. *)
Lemma registered_once_router (db : DB) :
  dynamicApiRouter (registerModel product (boot db empty_fs)).2
  = crudRoutes product products_model.
Proof.
  rewrite registerModel_router.
  change (define (name product) (schema_of (fields product)) (table_of product))
    with (@Resolved Model products_model).
  cbv beta iota.
  rewrite (compiled_all (crudRoutes product products_model)); [reflexivity|].
  intros r. by apply product_routes_compile.
Qed.

Lemma crudRoute_registered (modelConfig : ModelConfig) (DynamicModel : Model)
    (k : HandlerKind) :
  crudRoute modelConfig DynamicModel k ∈ crudRoutes modelConfig DynamicModel.
Proof.
  unfold crudRoutes. apply list_elem_of_fmap. exists k. split; [reflexivity|].
  unfold kinds. destruct k; set_solver.
Qed.

(** ** Routes and router *)

Lemma crudRoute_always_answers_witness :
  let req := request POST "product" None mona pen in
  let db := down_db "ECONNREFUSED" in
  run_stack (stack (crudRoute product products_model Create)) req db
  = Send {| status := 400; payload := Text "ECONNREFUSED" |} db.
Proof.
  intros req db.
  destruct (crudRoute_always_answers product products_model Create req db) as [_ Hallowed].
  destruct (Hallowed mona eq_refl eq_refl) as (Hfails & _).
  exact (Hfails {| message := "ECONNREFUSED" |} db eq_refl).
Defined.

Lemma unauthenticated_crud_changes_nothing_witness :
  let req := {| method := POST; target := "product"; params_id := None;
                credential := NoToken; body := pen; user := None |} in
  routes_registered published_once
  ∧ (crud req published_once).2 = published_once.
Proof.
  intros req.
  assert (Hroutes : routes_registered published_once)
    by apply published_once_consistent.
  split; [exact Hroutes|].
  apply (unauthenticated_crud_changes_nothing req published_once Hroutes).
  intros u. discriminate.
Defined.

Lemma database_change_is_authorized_witness :
  let req := request POST "product" None mona pen in
  database (crud req published_once).2 ≠ database published_once
  ∧ ∃ before after modelConfig DynamicModel k params u,
      dynamicApiRouter published_once
      = (before ++ crudRoute modelConfig DynamicModel k :: after)%list
      ∧ Forall (λ r, route_match r req = None) before
      ∧ route_match (crudRoute modelConfig DynamicModel k) req = Some params
      ∧ credential req = Verified u
      ∧ isAllowed (rbac modelConfig) (role u) (action_of k) = true
      ∧ handle (dynamicApiRouter published_once) req (database published_once)
        = handler_of k DynamicModel (set_user (set_params_id req params) u)
            (database published_once).
Proof.
  intros req.
  assert (Hchanged : database (crud req published_once).2 ≠ database published_once).
  { intros Hsame. apply (f_equal next_id) in Hsame. vm_compute in Hsame. discriminate. }
  split; [exact Hchanged|].
  apply (database_change_is_authorized req published_once); [|exact Hchanged].
  apply published_once_consistent.
Defined.

Lemma reregistration_is_invisible_witness :
  let req := request POST "product" None mona pen in
  let s := (registerModel product (boot empty_db empty_fs)).2 in
  let s' := (registerModel product_read_only s).2 in
  isAllowed (rbac product_read_only) Manager "create" = false
  ∧ (crud req s').1 = (crud req (set_database s (database s'))).1
  ∧ (status <$> (crud req s').1) = Some 201.
Proof.
  intros req s s'. split; [reflexivity|].
  destruct (reregistration_is_invisible product_read_only product products_model s req)
    as (_ & Hcrud & _).
  - apply (grows_consistent (boot empty_db empty_fs)); [apply boot_consistent|].
    apply registerModel_grows.
  - intros k. unfold s. rewrite registered_once_router. apply crudRoute_registered.
  - reflexivity.
  - split; [exact Hcrud|]. vm_compute. reflexivity.
Defined.

Lemma first_registration_is_live_witness :
  let s := boot (down_db "ECONNREFUSED") empty_fs in
  let req := request GET "PRODUCT" (Some "7") mona pen in
  (registerModel product s).1 = Rejected {| message := "ECONNREFUSED" |}
  ∧ route_match (crudRoute product products_model GetById) req = Some (Some "7")
  ∧ handle (dynamicApiRouter (registerModel product s).2) req (database s)
    = run_stack (stack (crudRoute product products_model GetById))
        (set_params_id req (Some "7")) (database s).
Proof.
  intros s req.
  assert (Hmatch : route_match (crudRoute product products_model GetById) req
                   = Some (Some "7")) by (vm_compute; reflexivity).
  split; [vm_compute; reflexivity|]. split; [exact Hmatch|].
  apply (first_registration_is_live product products_model GetById s req (Some "7")
           (map (crudRoute product products_model) [Create; ListAll])
           (map (crudRoute product products_model) [Update; Delete])).
  - reflexivity.
  - intros r. by apply product_routes_compile.
  - constructor.
  - reflexivity.
  - repeat constructor; vm_compute; reflexivity.
  - exact Hmatch.
Defined.

(** ** Registry *)

Lemma consistent_preserved_witness :
  consistent (boot empty_db empty_fs)
  ∧ consistent (publish (publish_request alice (as_body product)) (boot empty_db empty_fs)).2
  ∧ consistent (loadModelsFromFiles (boot empty_db broken_last)).2.
Proof.
  split; [apply boot_consistent|]. split.
  - destruct (consistent_preserved (boot empty_db empty_fs) boot_consistent)
      as (_ & Hpublish & _).
    exact (Hpublish _).
  - destruct (consistent_preserved (boot empty_db broken_last)) as (_ & _ & Hload & _);
      [by apply empty_consistent|exact Hload].
Defined.

Lemma registry_never_shrinks_witness :
  is_Some (dynamicModels published_once !! "Product")
  ∧ is_Some (dynamicModels published_twice !! "Product")
  ∧ dynamicApiRouter published_once `prefix_of` dynamicApiRouter published_twice.
Proof.
  assert (Hin : is_Some (dynamicModels published_once !! "Product")).
  { rewrite published_once_entry. eauto. }
  split; [exact Hin|].
  destruct (registry_never_shrinks published_once
              (publish_request alice (as_body product_read_only))
              product_read_only "Product" Hin) as [[Hentry Hprefix] _].
  split; [exact Hentry|exact Hprefix].
Defined.

Lemma model_schema_answers_witness :
  let asks modelName := request GET "models" (Some modelName) victor pen in
  model_schema (asks "Product") published_once
  = (Some {| status := 200; payload := JsonConfig product |}, published_once)
  ∧ model_schema (asks "product") published_once
    = (Some {| status := 404; payload := Text "Model schema not found." |}, published_once)
  ∧ model_schema (asks "constructor") published_once
    = (Some {| status := 200; payload := Empty |}, published_once).
Proof.
  intros asks.
  assert (Hnone : ∀ modelName,
            Forall (λ r, route_match r (asks modelName) = None)
              (dynamicApiRouter published_once)).
  { intros modelName. apply first_match_None. vm_compute. reflexivity. }
  split; [|split].
  - destruct (model_schema_answers published_once (asks "Product") victor "Product"
                published_once_consistent (Hnone _) eq_refl eq_refl eq_refl)
      as (-> & Hown & _).
    destruct (Hown _ published_once_entry) as [-> _]. reflexivity.
  - destruct (model_schema_answers published_once (asks "product") victor "product"
                published_once_consistent (Hnone _) eq_refl eq_refl eq_refl)
      as (-> & _ & _ & Hundefined).
    rewrite Hundefined; [reflexivity|vm_compute; reflexivity| |vm_compute; reflexivity].
    unfold Object_prototype. intros Hin.
    repeat (apply elem_of_cons in Hin as [[=]|Hin]). by apply elem_of_nil in Hin.
  - destruct (model_schema_answers published_once (asks "constructor") victor "constructor"
                published_once_consistent (Hnone _) eq_refl eq_refl eq_refl)
      as (-> & _ & Hinherited & _).
    rewrite Hinherited; [reflexivity|vm_compute; reflexivity|constructor].
Defined.

Lemma schema_lookup_behind_router_witness :
  let s := (registerModel catalogue (boot empty_db empty_fs)).2 in
  let req := request GET "models" (Some "Models") victor pen in
  (config <$> dynamicModels s !! "Models") = Some catalogue
  ∧ (crud req s).1 = Some notFound
  ∧ (model_schema req s).1 = Some notFound.
Proof.
  intros s req.
  assert (Hcrud : (crud req s).1 = Some notFound) by (vm_compute; reflexivity).
  split; [vm_compute; reflexivity|]. split; [exact Hcrud|].
  rewrite (schema_lookup_behind_router req s notFound Hcrud). exact Hcrud.
Defined.

(** ** Publishing *)

Lemma publish_created_sound_witness :
  let req := publish_request alice (as_body product) in
  let s := boot empty_db empty_fs in
  status (publish req s).1 = 201
  ∧ ∃ u modelConfig,
      credential req = Verified u
      ∧ role u = Admin
      ∧ validate (body req) = Some modelConfig
      ∧ (writeJson (name modelConfig +:+ ".json") modelConfig (disk s)).1 = Resolved tt
      ∧ registerModel modelConfig
          (warn_if_registered (name modelConfig)
             (set_disk s (writeJson (name modelConfig +:+ ".json") modelConfig (disk s)).2)).2
        = (Resolved tt, (publish req s).2)
      ∧ disk (publish req s).2
        = (writeJson (name modelConfig +:+ ".json") modelConfig (disk s)).2
      ∧ (config <$> dynamicModels (publish req s).2 !! name modelConfig) = Some modelConfig.
Proof.
  intros req s.
  assert (Hcreated : status (publish req s).1 = 201) by (vm_compute; reflexivity).
  split; [exact Hcreated|].
  exact (publish_created_sound req s Hcreated).
Defined.

Lemma failed_write_registers_nothing_witness :
  let req := publish_request alice (as_body product) in
  let s := boot empty_db {| read_only := Some "EROFS"; dir := [] |} in
  writeJson "Product.json" product (disk s)
  = (Rejected {| message := "EROFS" |}, disk s)
  ∧ (publish req s).1 = {| status := 500; payload := Text "EROFS" |}
  ∧ dynamicModels (publish req s).2 = dynamicModels s
  ∧ dynamicApiRouter (publish req s).2 = dynamicApiRouter s.
Proof.
  intros req s. split; [reflexivity|].
  destruct (failed_write_registers_nothing req alice product s
              {| message := "EROFS" |} (disk s) eq_refl eq_refl eq_refl eq_refl)
    as (Hres & Hmodels & Hrouter & _).
  auto.
Defined.

(** ** Boot *)

Lemma load_each_registers_all_witness :
  let files := ["Product.json"; "notes.txt"] in
  let s := boot empty_db {| read_only := None;
                            dir := [("Product.json", Parses product);
                                    ("notes.txt", Malformed)] |} in
  (load_each files s).1 = Resolved tt
  ∧ ∃ modelConfig,
      (readJson "Product.json" (disk s)).1 = Resolved modelConfig
      ∧ is_Some (dynamicModels (load_each files s).2 !! name modelConfig).
Proof.
  intros files s.
  assert (Hok : (load_each files s).1 = Resolved tt) by (vm_compute; reflexivity).
  split; [exact Hok|].
  apply (load_each_registers_all files s (load_each files s).2).
  - intros file d. simpl. unfold mem_readJson.
    destruct (file_lookup file (dir d)) as [[c|]|]; reflexivity.
  - apply (settled_as (load_each files) s). exact Hok.
  - constructor.
  - reflexivity.
Defined.

(** ** Rows *)

Lemma missing_row_is_404_witness :
  let req := request DELETE "product" (Some "7") alice pen in
  findByPk products_model (Some "7") (database published_once)
  = (Resolved None, database published_once)
  ∧ run_stack (stack (crudRoute product products_model Delete)) req
      (database published_once)
    = Send notFound (database published_once).
Proof.
  intros req.
  assert (Hnone : findByPk products_model (Some "7") (database published_once)
                  = (Resolved None, database published_once))
    by (vm_compute; reflexivity).
  split; [exact Hnone|].
  apply (missing_row_is_404 product products_model Delete req alice);
    [set_solver|reflexivity|reflexivity|exact Hnone].
Defined.

(** ** Authentication *)

Lemma signup_rejects_unknown_role_witness :
  (signup root_signs_up nobody).1
  = {| auth_status := 400; auth_body := AuthText "Invalid role." |}
  ∧ users (signup root_signs_up nobody).2 = [].
Proof.
  apply (signup_rejects_unknown_role root_signs_up nobody).
  intros r. by destruct r.
Defined.

Lemma signup_created_sound_witness :
  auth_status (signup carol_signs_up nobody).1 = 201
  ∧ ∃ r user,
      signup_role carol_signs_up = role_name r
      ∧ (User_create "carol" "s3cret" r (users nobody)).1 = Resolved user
      ∧ users (signup carol_signs_up nobody).2
        = (User_create "carol" "s3cret" r (users nobody)).2
      ∧ auth_body (signup carol_signs_up nobody).1
        = AuthUser (row_id user) (row_username user) (row_role user).
Proof.
  split; [reflexivity|].
  exact (signup_created_sound carol_signs_up nobody eq_refl).
Defined.

Lemma login_failures_look_alike_witness :
  (login carol_mistypes with_carol).1 = invalid_login
  ∧ (login carol_logs_in nobody).1 = invalid_login.
Proof.
  split.
  - apply (login_failures_look_alike carol_mistypes with_carol).
    right. eexists. split; reflexivity.
  - apply (login_failures_look_alike carol_logs_in nobody). left. reflexivity.
Defined.

Lemma login_token_sound_witness :
  let claims := {| user_id := "1"; username := "carol"; role := Manager |} in
  auth_body (login carol_logs_in with_carol).1 = AuthToken claims
  ∧ ∃ user,
      (User_findOne "carol" (users with_carol)).1 = Resolved (Some user)
      ∧ bcrypt_compare "s3cret" (row_password user) = Resolved true
      ∧ jwt_sign {| user_id := row_id user; username := row_username user;
                    role := row_role user |} = Resolved claims
      ∧ auth_status (login carol_logs_in with_carol).1 = 200.
Proof.
  intros claims. split; [reflexivity|].
  exact (login_token_sound carol_logs_in with_carol claims eq_refl).
Defined.

Lemma pg_signup_created_sound_witness :
  (pg_status (pg_signup dave_signs_up []).1 = 201
   ∧ ∃ pg1 hash pg2,
       select_by_email "dave@example.org" [] = (Resolved [], pg1)
       ∧ pg_hash "hunter2" pg1 = (Resolved hash, pg2)
       ∧ insert_user "Dave" "dave@example.org" hash pg2 = (Resolved tt, with_dave))
  ∧ pg_signup dave_signs_up with_dave
    = ({| pg_status := 400; pg_body := PgMessage "User already exists" |}, with_dave).
Proof.
  destruct (@pg_signup_created_sound pool dave_signs_up []) as [Hcreated _].
  destruct (@pg_signup_created_sound pool dave_signs_up with_dave) as [_ Hexists].
  split; [split; [reflexivity|exact (Hcreated eq_refl)]|].
  eapply Hexists. reflexivity.
Defined.

(** ** Client *)

Lemma can_agrees_with_server_witness :
  let req := request POST "product" None victor pen in
  can (Some product) (Some victor) "create" = false
  ∧ run_stack (stack (crudRoute product products_model Create)) req empty_db
    = Send (forbidden Viewer "create" "Product") empty_db.
Proof.
  intros req. split; [reflexivity|].
  apply (can_agrees_with_server product products_model Create victor req empty_db eq_refl).
  reflexivity.
Defined.

Lemma handleRbacChange_effect_witness :
  initial_rbac !! role_name Admin = Some ["all"]
  ∧ isAllowed (handleRbacChange "Admin" "delete" false initial_rbac) Admin "delete" = true
  ∧ isAllowed (handleRbacChange "Viewer" "read" false initial_rbac) Viewer "read" = false.
Proof.
  split; [reflexivity|].
  destruct (handleRbacChange_effect Admin "delete" initial_rbac) as (_ & _ & Hkept).
  destruct (handleRbacChange_effect Viewer "read" initial_rbac) as (_ & Hcleared & _).
  split.
  - apply Hkept; [|discriminate]. vm_compute. constructor.
  - apply Hcleared. vm_compute. intros Hin.
    repeat (apply elem_of_cons in Hin as [[=]|Hin]). by apply elem_of_nil in Hin.
Defined.

End MoreScenarios.
